(** * Authentication core of the contacts REST backend

    A shallow embedding of [src/services/auth.py], [src/services/users.py],
    [src/repository/users.py], [src/services/email.py] and the auth routes
    of [src/api/auth.py], with the properties of the session subsystem
    proved about it.

    Conventions.
    - A [datetime] is a number of microseconds since the epoch;
      [timegm (d.utctimetuple())], the conversion python-jose applies to
      time claims and to its own clock, is [d / 10^6].
    - Library serialisations are represented by what they denote: a compact
      JWS by the claim set, key and algorithm it was signed with, a
      jsonpickle document by the object it pickles, a bcrypt hash by the
      salt and the bytes of the secret it digests.  Any other string of the
      respective kind is kept as the raw string.
    - A Python [str] is the string of the bytes of its UTF-8 encoding.
    - Python exceptions are values of [exn]; a call returns [Ok] or
      [Raise], and the process state ([World]) is threaded through. *)

From stdpp Require Import base decidable option list strings gmap fin_maps.
From Stdlib Require Import ZArith Ascii String Permutation Lia.

Local Open Scope string_scope.
Local Open Scope Z_scope.

(** ** Exceptions and results *)

Module Exn.

(** Subclasses of [jose.exceptions.JWTError] that [jwt.decode] raises. *)
Inductive jwt_error :=
  | InvalidCompactJWS       (* not three base64 segments *)
  | AlgorithmNotAllowed     (* header alg not in [algorithms] *)
  | SignatureVerificationFailed
  | ExpiredSignatureError
  | JWTClaimsError.

Inductive exn :=
  | HTTPException (status_code : Z) (detail : string)
                  (headers : list (string * string))
  | JWTError (e : jwt_error)
  | KeyError (key : string)
  | AttributeError (obj attr : string)
  | MultipleResultsFound
  | UnknownHashError        (* passlib: hash could not be identified *)
  | MalformedHashError      (* passlib: a ValueError of the bcrypt handler *)
  | PasswordSizeError       (* passlib: secret longer than 4096 *)
  | PasswordValueError      (* passlib: NullPasswordError, a NUL in the secret *)
  | JSONDecodeError
  | IndexError
  | TypeError
  | ValueError
  | OverflowError.

Inductive res (A : Type) :=
  | Ok (a : A)
  | Raise (e : exn).
Arguments Ok {A} a.
Arguments Raise {A} e.

#[global] Instance jwt_error_eq_dec : EqDecision jwt_error.
Proof. solve_decision. Defined.
#[global] Instance exn_eq_dec : EqDecision exn.
Proof. solve_decision. Defined.

Definition is_ok {A} (r : res A) : bool :=
  match r with Ok _ => true | Raise _ => false end.

End Exn.
Export Exn.

(** ** Data model *)

(** A Python [float] as [json.loads] yields it: a finite value, given as a
    fraction, or one of [Infinity], [-Infinity] and [NaN], which it reads
    as well. *)
Inductive pyfloat :=
  | Finite (num : Z) (den : positive)
  | Infinity
  | NaN.

#[global] Instance pyfloat_eq_dec : EqDecision pyfloat.
Proof. solve_decision. Defined.

(** The values of a claim set: what [json.loads] yields for a JSON value,
    and [JDatetime], a Python [datetime] object placed in a dict before
    encoding.  No code path looks into an array or an object, so these are
    kept as their JSON text. *)
Inductive jval :=
  | JStr (s : string)
  | JInt (n : Z)
  | JNull
  | JDatetime (d : Z)
  | JBool (b : bool)
  | JFloat (x : pyfloat)
  | JArray (json : string)
  | JObject (json : string).

#[global] Instance jval_eq_dec : EqDecision jval.
Proof. solve_decision. Defined.

Abbreviation claims := (gmap string jval).

(** A token string.  [Jws c k a] is the compact serialisation of the claim
    set [c] signed under key [k] with algorithm [a]; [Opaque s] is any
    other string: one that is not a compact JWS, or whose payload is not a
    JSON object. *)
Inductive token :=
  | Jws (payload : claims) (key : string) (alg : string)
  | Opaque (s : string).

#[global] Instance token_eq_dec : EqDecision token.
Proof. solve_decision. Defined.

(** A stored password hash.  [BcryptHash salt secret] is a well-formed
    bcrypt hash string, whose digest is that of the first 72 bytes of
    [secret] under [salt]; [MalformedBcrypt s] starts with a bcrypt ident
    but does not parse; [Unidentified s] is matched by no scheme of the
    context. *)
Inductive hashed :=
  | BcryptHash (salt : nat) (secret : string)
  | MalformedBcrypt (s : string)
  | Unidentified (s : string).

#[global] Instance hashed_eq_dec : EqDecision hashed.
Proof. solve_decision. Defined.

(** [src/database/models.py] *)
Inductive UserRole := USER | ADMIN.

#[global] Instance UserRole_eq_dec : EqDecision UserRole.
Proof. solve_decision. Defined.

(** The [contacts] relationship plays no part in authentication and is
    left out. *)
Record User := mkUser {
  id : Z;
  email : string;
  username : string;
  hashed_password : hashed;
  created_at : Z;
  avatar : option string;
  confirmed : bool;
  role : UserRole;
  refresh_token : option token
}.

#[global] Instance User_eq_dec : EqDecision User.
Proof. solve_decision. Defined.

Definition set_refresh_token (t : option token) (u : User) : User :=
  mkUser (id u) (email u) (username u) (hashed_password u) (created_at u)
         (avatar u) (confirmed u) (role u) t.

Definition set_hashed_password (h : hashed) (u : User) : User :=
  mkUser (id u) (email u) (username u) h (created_at u)
         (avatar u) (confirmed u) (role u) (refresh_token u).

(** [src/conf/config.py]: the settings the auth core reads. *)
Record Settings := mkSettings {
  JWT_SECRET : string;
  JWT_ALGORITHM : string;
  JWT_EXPIRATION_SECONDS : Z;
  REFRESH_TOKEN_EXPIRATION_SECONDS : Z
}.

Definition default_settings (secret : string) : Settings :=
  mkSettings secret "HS256" 3600 (7 * 24 * 60 * 60).

(** ** Time *)

Definition timedelta_seconds (n : Z) : Z := n * 1000000.
Definition timedelta_days (n : Z) : Z := n * 86400 * 1000000.
Definition timegm (d : Z) : Z := d / 1000000.

(** ** python-jose as the program uses it *)

Module Jose.

(** [jwt.encode]: the time claims [exp], [iat], [nbf] given as [datetime]
    are replaced by whole epoch seconds, then the claims are signed. *)
Definition convert_time_claim (k : string) (c : claims) : claims :=
  match c !! k with
  | Some (JDatetime d) => <[k := JInt (timegm d)]> c
  | _ => c
  end.

Definition encode (c : claims) (key alg : string) : token :=
  Jws (convert_time_claim "nbf"
         (convert_time_claim "iat" (convert_time_claim "exp" c))) key alg.

(** [int(x)] for a claim value [x], with the exceptions it raises.  A
    [str] is read as a decimal numeral: blanks around it, a sign, then
    digits, where single underscores may separate digits; more than 4300
    digits are refused.  (Python also reads the decimal digits and blanks
    of other scripts than ASCII; those are taken as no numeral here.) *)
Definition is_space (c : ascii) : bool :=
  let n := N_of_ascii c in
  (((9 <=? n) && (n <=? 13)) || (n =? 32))%N.

Definition digit_value (c : ascii) : option Z :=
  let n := Z.of_N (N_of_ascii c) in
  if (48 <=? n) && (n <=? 57) then Some (n - 48) else None.

Fixpoint lstrip (l : list ascii) : list ascii :=
  match l with
  | c :: l' => if is_space c then lstrip l' else l
  | [] => []
  end.

Definition strip (l : list ascii) : list ascii :=
  rev (lstrip (rev (lstrip l))).

(** The digits of a numeral: the value read so far, whether the last
    character was a digit, and the number of digits. *)
Fixpoint read_digits (acc : Z) (after_digit : bool) (count : nat)
    (l : list ascii) : option (Z * nat) :=
  match l with
  | [] => if after_digit then Some (acc, count) else None
  | c :: l' =>
      match digit_value c with
      | Some d => read_digits (acc * 10 + d) true (S count) l'
      | None =>
          if bool_decide (c = "_"%char) && after_digit
          then read_digits acc false count l'
          else None
      end
  end.

Definition int_of_string (s : string) : option Z :=
  let l := strip (list_ascii_of_string s) in
  let '(negative, l) :=
    match l with
    | c :: l' =>
        if bool_decide (c = "-"%char) then (true, l')
        else if bool_decide (c = "+"%char) then (false, l')
        else (false, l)
    | [] => (false, l)
    end in
  match read_digits 0 false 0 l with
  | Some (n, count) =>
      if (4300 <? count)%nat then None
      else Some (if negative then - n else n)
  | None => None
  end.

Definition py_int (x : jval) : res Z :=
  match x with
  | JInt n => Ok n
  | JBool b => Ok (if b then 1 else 0)
  | JFloat (Finite num den) => Ok (num ÷ Z.pos den)
  | JFloat Infinity => Raise OverflowError
  | JFloat NaN => Raise ValueError
  | JStr s =>
      match int_of_string s with
      | Some n => Ok n
      | None => Raise ValueError
      end
  | JNull | JDatetime _ | JArray _ | JObject _ => Raise TypeError
  end.

(** [try: int(claims[k]) except ValueError: raise JWTClaimsError]: any
    other exception of [int] leaves the validator as it is. *)
Definition int_claim (x : jval) : res Z :=
  match py_int x with
  | Raise ValueError => Raise (JWTError JWTClaimsError)
  | r => r
  end.

(** [jwt._validate_claims] as [jwt.decode] calls it here: no audience, no
    issuer, no subject and no access token are given, and no claim is
    required. *)
Definition validate_iat (c : claims) : res unit :=
  match c !! "iat" with
  | None => Ok tt
  | Some x =>
      match int_claim x with
      | Ok _ => Ok tt
      | Raise e => Raise e
      end
  end.

Definition validate_nbf (c : claims) (now : Z) : res unit :=
  match c !! "nbf" with
  | None => Ok tt
  | Some x =>
      match int_claim x with
      | Ok nbf =>
          if timegm now <? nbf then Raise (JWTError JWTClaimsError)
          else Ok tt
      | Raise e => Raise e
      end
  end.

Definition validate_exp (c : claims) (now : Z) : res unit :=
  match c !! "exp" with
  | None => Ok tt
  | Some x =>
      match int_claim x with
      | Ok e =>
          if e <? timegm now then Raise (JWTError ExpiredSignatureError)
          else Ok tt
      | Raise e => Raise e
      end
  end.

(** With [audience=None] an [aud] claim never matches. *)
Definition validate_aud (c : claims) : res unit :=
  match c !! "aud" with
  | None => Ok tt
  | Some _ => Raise (JWTError JWTClaimsError)
  end.

Definition validate_sub (c : claims) : res unit :=
  match c !! "sub" with
  | None | Some (JStr _) => Ok tt
  | Some _ => Raise (JWTError JWTClaimsError)
  end.

Definition validate_jti (c : claims) : res unit :=
  match c !! "jti" with
  | None | Some (JStr _) => Ok tt
  | Some _ => Raise (JWTError JWTClaimsError)
  end.

(** With [access_token=None] an [at_hash] claim cannot be checked. *)
Definition validate_at_hash (c : claims) : res unit :=
  match c !! "at_hash" with
  | None => Ok tt
  | Some _ => Raise (JWTError JWTClaimsError)
  end.

Definition and_then (r : res unit) (k : res claims) : res claims :=
  match r with
  | Ok _ => k
  | Raise e => Raise e
  end.

Definition validate_claims (c : claims) (now : Z) : res claims :=
  and_then (validate_iat c)
    (and_then (validate_nbf c now)
       (and_then (validate_exp c now)
          (and_then (validate_aud c)
             (and_then (validate_sub c)
                (and_then (validate_jti c)
                   (and_then (validate_at_hash c) (Ok c))))))).

(** [jwt.decode(token, key, algorithms=...)] read at clock [now]. *)
Definition decode (t : token) (key : string) (algorithms : list string)
    (now : Z) : res claims :=
  match t with
  | Opaque _ => Raise (JWTError InvalidCompactJWS)
  | Jws c k a =>
      if bool_decide (a ∈ algorithms) then
        if bool_decide (k = key) then validate_claims c now
        else Raise (JWTError SignatureVerificationFailed)
      else Raise (JWTError AlgorithmNotAllowed)
  end.

End Jose.

(** ** Token codec ([src/services/auth.py]) *)

(** [create_email_token]: the clock is read twice, first for [expire], then
    for [iat]. *)
Definition create_email_token (cfg : Settings) (data : claims)
    (now_expire now_iat : Z) : token :=
  let to_encode := data in
  let expire := now_expire + timedelta_days 7 in
  let to_encode :=
    <["exp" := JDatetime expire]> (<["iat" := JDatetime now_iat]> to_encode) in
  Jose.encode to_encode (JWT_SECRET cfg) (JWT_ALGORITHM cfg).

(** [if expires_delta:] is false for [None] and for [0]. *)
Definition truthy_delta (expires_delta : option Z) : option Z :=
  match expires_delta with
  | Some d => if d =? 0 then None else Some d
  | None => None
  end.

Definition access_expire (cfg : Settings) (expires_delta : option Z)
    (now : Z) : Z :=
  match truthy_delta expires_delta with
  | Some d => now + timedelta_seconds d
  | None => now + timedelta_seconds (JWT_EXPIRATION_SECONDS cfg)
  end.

Definition create_access_token (cfg : Settings) (data : claims)
    (expires_delta : option Z) (now : Z) : token :=
  let to_encode := data in
  let expire := access_expire cfg expires_delta now in
  let to_encode :=
    <["token_type" := JStr "access"]>
      (<["iat" := JDatetime now]> (<["exp" := JDatetime expire]> to_encode)) in
  Jose.encode to_encode (JWT_SECRET cfg) (JWT_ALGORITHM cfg).

Definition refresh_expire (cfg : Settings) (expires_delta : option Z)
    (now : Z) : Z :=
  match truthy_delta expires_delta with
  | Some d => now + timedelta_seconds d
  | None => now + timedelta_seconds (REFRESH_TOKEN_EXPIRATION_SECONDS cfg)
  end.

Definition create_refresh_token (cfg : Settings) (data : claims)
    (expires_delta : option Z) (now : Z) : token :=
  let to_encode := data in
  let expire := refresh_expire cfg expires_delta now in
  let to_encode :=
    <["token_type" := JStr "refresh"]>
      (<["iat" := JDatetime now]> (<["exp" := JDatetime expire]> to_encode)) in
  Jose.encode to_encode (JWT_SECRET cfg) (JWT_ALGORITHM cfg).


(** ** Process state *)

(** A value held by the cache: the jsonpickle document of a [User], or
    bytes that jsonpickle cannot decode. *)
Inductive blob :=
  | Pickled (u : User)
  | Bytes (s : string).

#[global] Instance blob_eq_dec : EqDecision blob.
Proof. solve_decision. Defined.

Inductive column := ByEmail | ByUsername.

(** Calls that leave the process, in the order they are made. *)
Inductive event :=
  | DbExecute (col : column) (value : string)
  | DbCommit
  | DbRefresh (row : nat)
  | RedisGet (k : string)
  | RedisSet (k : string) (v : blob)
  | RedisExpire (k : string) (seconds : Z).

#[global] Instance column_eq_dec : EqDecision column.
Proof. solve_decision. Defined.
#[global] Instance event_eq_dec : EqDecision event.
Proof. solve_decision. Defined.

(** Work handed to [BackgroundTasks.add_task]. *)
Inductive task :=
  | send_reset_password_email (email password : string)
  | send_email (email username host : string).

(** [db] is the [users] table, a row being addressed by its position;
    [redis] maps a key to its value and, when one is set, the instant at
    which it expires; [entropy] is the supply of random draws; [pytest]
    tells whether ["pytest"] is in [sys.modules]. *)
Record World := mkWorld {
  settings : Settings;
  pytest : bool;
  clock : Z;
  entropy : list nat;
  db : list User;
  redis : gmap string (blob * option Z);
  log : list event;
  background_tasks : list task
}.

Definition with_clock (t : Z) (w : World) : World :=
  mkWorld (settings w) (pytest w) t (entropy w) (db w) (redis w) (log w)
          (background_tasks w).
Definition with_entropy (e : list nat) (w : World) : World :=
  mkWorld (settings w) (pytest w) (clock w) e (db w) (redis w) (log w)
          (background_tasks w).
Definition with_db (d : list User) (w : World) : World :=
  mkWorld (settings w) (pytest w) (clock w) (entropy w) d (redis w) (log w)
          (background_tasks w).
Definition with_redis (r : gmap string (blob * option Z)) (w : World) : World :=
  mkWorld (settings w) (pytest w) (clock w) (entropy w) (db w) r (log w)
          (background_tasks w).
Definition with_log (l : list event) (w : World) : World :=
  mkWorld (settings w) (pytest w) (clock w) (entropy w) (db w) (redis w) l
          (background_tasks w).
Definition with_tasks (t : list task) (w : World) : World :=
  mkWorld (settings w) (pytest w) (clock w) (entropy w) (db w) (redis w) (log w)
          t.

(** ** The monad of calls: state plus exceptions *)

Definition M (A : Type) : Type := World → res A * World.

#[global] Instance M_ret : MRet M := λ A a w, (Ok a, w).
#[global] Instance M_bind : MBind M := λ A B f m w,
  match m w with
  | (Ok a, w') => f a w'
  | (Raise e, w') => (Raise e, w')
  end.

Definition raise {A} (e : exn) : M A := λ w, (Raise e, w).
Definition lift {A} (r : res A) : M A := λ w, (r, w).
Definition get_settings : M Settings := λ w, (Ok (settings w), w).
Definition datetime_now : M Z := λ w, (Ok (clock w), w).
Definition emit (e : event) : M unit :=
  λ w, (Ok tt, with_log (log w ++ [e]) w).

(** [try: body except JWTError: handler] *)
Definition try_except_JWTError {A} (body handler : M A) : M A := λ w,
  match body w with
  | (Raise (JWTError _), w') => handler w'
  | r => r
  end.

(** [payload[k]] *)
Definition subscript (payload : claims) (k : string) : M jval :=
  match payload !! k with
  | Some v => mret v
  | None => raise (KeyError k)
  end.

(** ** Libraries around the core *)

Module Random.

(** One draw below [n], as [Random._randbelow]. *)
Definition randbelow (n : nat) : M nat := λ w,
  match entropy w with
  | [] => (Ok 0%nat, w)
  | r :: rest => (Ok (r mod n)%nat, with_entropy rest w)
  end.

Definition choice {A} (seq : list A) : M A :=
  i ← randbelow (List.length seq);
  match seq !! i with
  | Some x => mret x
  | None => raise IndexError
  end.

Fixpoint choices {A} (population : list A) (k : nat) : M (list A) :=
  match k with
  | O => mret []
  | S k' =>
      x ← choice population;
      xs ← choices population k';
      mret (x :: xs)
  end.

(** [x[i], x[j] = x[j], x[i]] *)
Definition swap {A} (i j : nat) (x : list A) : list A :=
  match x !! i, x !! j with
  | Some a, Some b => <[j := a]> (<[i := b]> x)
  | _, _ => x
  end.

(** The loop of [shuffle]: [for i in reversed(range(1, len(x)))] with
    [j = randbelow(i + 1)]; [i] counts down from its argument to 1. *)
Fixpoint shuffle_from {A} (i : nat) (x : list A) : M (list A) :=
  match i with
  | O => mret x
  | S i' =>
      j ← randbelow (S i);
      shuffle_from i' (swap i j x)
  end.

Definition shuffle {A} (x : list A) : M (list A) :=
  shuffle_from (List.length x - 1)%nat x.

End Random.

Module Passlib.

Definition MAX_PASSWORD_SIZE : nat := 4096.

(** [len(secret)] for the [str] and for its UTF-8 encoding: a character is
    every byte that does not continue one. *)
Definition is_continuation (c : ascii) : bool :=
  let n := N_of_ascii c in ((128 <=? n) && (n <? 192))%N.

Definition str_len (s : string) : nat :=
  List.length (List.filter (λ c, negb (is_continuation c))
                 (list_ascii_of_string s)).

Definition bytes_len (s : string) : nat := String.length s.

Definition has_nul (s : string) : bool :=
  bool_decide (Ascii.zero ∈ list_ascii_of_string s).

(** What bcrypt digests: it reads the first 72 bytes. *)
Definition digest_input (secret : string) : string :=
  String.substring 0 72 secret.

(** [bcrypt._calc_checksum(secret)]: the encoded secret is checked for its
    size and for NUL bytes, then digested. *)
Definition calc_checksum (secret : string) : res string :=
  if (MAX_PASSWORD_SIZE <? bytes_len secret)%nat then Raise PasswordSizeError
  else if has_nul secret then Raise PasswordValueError
  else Ok (digest_input secret).

(** [CryptContext(schemes=["bcrypt"]).verify(secret, hash)]: the hash is
    identified against the schemes first, which raises when none matches;
    the bcrypt handler then checks the size of the secret, parses the
    hash, which raises when it is malformed, and compares digests. *)
Definition verify (secret : string) (h : hashed) : res bool :=
  match h with
  | Unidentified _ => Raise UnknownHashError
  | MalformedBcrypt _ =>
      if (MAX_PASSWORD_SIZE <? str_len secret)%nat
      then Raise PasswordSizeError
      else Raise MalformedHashError
  | BcryptHash _ s =>
      if (MAX_PASSWORD_SIZE <? str_len secret)%nat
      then Raise PasswordSizeError
      else
        match calc_checksum secret with
        | Ok d => Ok (bool_decide (d = digest_input s))
        | Raise e => Raise e
        end
  end.

(** [CryptContext.hash(secret)] once the salt is drawn. *)
Definition hash (secret : string) (salt : nat) : res hashed :=
  match calc_checksum secret with
  | Ok d => Ok (BcryptHash salt d)
  | Raise e => Raise e
  end.

End Passlib.

Module Redis.

Definition alive (now : Z) (e : blob * option Z) : bool :=
  match e.2 with
  | None => true
  | Some t => negb (t <? now)
  end.

(** The value a [GET] would return. *)
Definition peek (k : string) (w : World) : option blob :=
  match redis w !! k with
  | Some e => if alive (clock w) e then Some e.1 else None
  | None => None
  end.

Definition get (k : string) : M (option blob) := λ w,
  (Ok (peek k w), with_log (log w ++ [RedisGet k]) w).

(** [SET] stores the value and clears any expiry. *)
Definition set (k : string) (v : blob) : M unit := λ w,
  (Ok tt, with_redis (<[k := (v, None)]> (redis w))
            (with_log (log w ++ [RedisSet k v]) w)).

Definition expire (k : string) (seconds : Z) : M unit := λ w,
  let w' := with_log (log w ++ [RedisExpire k seconds]) w in
  match peek k w with
  | Some v =>
      (Ok tt, with_redis
         (<[k := (v, Some (clock w + timedelta_seconds seconds))]> (redis w))
         w')
  | None => (Ok tt, w')
  end.

End Redis.

Module Jsonpickle.

Definition encode (u : User) : blob := Pickled u.

Definition decode (b : blob) : res User :=
  match b with
  | Pickled u => Ok u
  | Bytes _ => Raise JSONDecodeError
  end.

End Jsonpickle.

(** ** User store ([src/repository/users.py], [src/services/users.py]) *)

(** The rows of [select(User).filter_by(...)], each with its position. *)
Fixpoint select_where (p : User → bool) (i : nat) (rows : list User)
    : list (nat * User) :=
  match rows with
  | [] => []
  | u :: rest =>
      if p u then (i, u) :: select_where p (S i) rest
      else select_where p (S i) rest
  end.

Definition scalar_one_or_none {A} (rows : list A) : res (option A) :=
  match rows with
  | [] => Ok None
  | [r] => Ok (Some r)
  | _ => Raise MultipleResultsFound
  end.

Definition has_email (e : string) (u : User) : bool :=
  bool_decide (email u = e).
Definition has_username (n : string) (u : User) : bool :=
  bool_decide (username u = n).

(** [user.attr = value] on the row of an ORM object. *)
Definition assign (i : nat) (u : User) : M unit :=
  λ w, (Ok tt, with_db (<[i := u]> (db w)) w).

Module UserRepository.

Definition get_user_by_email (e : string) : M (option (nat * User)) := λ w,
  (scalar_one_or_none (select_where (has_email e) 0 (db w)),
   with_log (log w ++ [DbExecute ByEmail e]) w).

Definition get_user_by_username (n : string) : M (option (nat * User)) := λ w,
  (scalar_one_or_none (select_where (has_username n) 0 (db w)),
   with_log (log w ++ [DbExecute ByUsername n]) w).

Definition update_hashed_password (e : string) (h : hashed) : M unit :=
  user ← get_user_by_email e;
  match user with
  | None => raise (AttributeError "NoneType" "hashed_password")
  | Some (i, u) =>
      assign i (set_hashed_password h u);;
      emit DbCommit
  end.

Definition update_refresh_token (e : string) (t : token)
    : M (nat * User) :=
  user ← get_user_by_email e;
  match user with
  | None => raise (AttributeError "NoneType" "refresh_token")
  | Some (i, u) =>
      let u' := set_refresh_token (Some t) u in
      assign i u';;
      emit DbCommit;;
      emit (DbRefresh i);;
      mret (i, u')
  end.

End UserRepository.

Module UserService.

Definition get_user_by_email (e : string) : M (option (nat * User)) :=
  UserRepository.get_user_by_email e.

Definition get_user_by_username (n : string) : M (option (nat * User)) :=
  UserRepository.get_user_by_username n.

Definition update_hashed_password (e : string) (h : hashed) : M unit :=
  UserRepository.update_hashed_password e h.

(** The repository's result is awaited and dropped: the service returns
    [None]. *)
Definition update_refresh_token (e : string) (t : token)
    : M (option (nat * User)) :=
  UserRepository.update_refresh_token e t;;
  mret None.

End UserService.

(** ** Auth service ([src/services/auth.py]) *)

Definition credentials_exception : exn :=
  HTTPException 401 "Could not validate credentials"
                [("WWW-Authenticate", "Bearer")].

Module Hash.

Definition verify_password (plain_password : string)
    (hashed_password : hashed) : res bool :=
  Passlib.verify plain_password hashed_password.

(** The size of the [str] is checked first; the salt is then a fresh
    random draw. *)
Definition get_password_hash (password : string) : M hashed := λ w,
  if (Passlib.MAX_PASSWORD_SIZE <? Passlib.str_len password)%nat
  then (Raise PasswordSizeError, w)
  else
    match entropy w with
    | [] => (Passlib.hash password 0, w)
    | salt :: rest => (Passlib.hash password salt, with_entropy rest w)
    end.

End Hash.

Definition ascii_lowercase : list ascii :=
  list_ascii_of_string "abcdefghijklmnopqrstuvwxyz".
Definition ascii_uppercase : list ascii :=
  list_ascii_of_string "ABCDEFGHIJKLMNOPQRSTUVWXYZ".
Definition digits : list ascii := list_ascii_of_string "0123456789".
Definition symbols : list ascii := list_ascii_of_string "@$!%*?&".
Definition ascii_letters : list ascii :=
  (ascii_lowercase ++ ascii_uppercase)%list.

Definition generate_temp_password : M string := λ w,
  if pytest w then (Ok "TestTest2!", w) else
  (let length := 10%nat in
   lower ← Random.choice ascii_lowercase;
   upper ← Random.choice ascii_uppercase;
   digit ← Random.choice digits;
   symbol ← Random.choice symbols;
   let remaining := (length - 4)%nat in
   other_chars ←
     Random.choices (ascii_letters ++ digits ++ symbols)%list remaining;
   let password_list := ([lower; upper; digit; symbol] ++ other_chars)%list in
   password_list ← Random.shuffle password_list;
   let password := string_of_list_ascii password_list in
   mret password) w.

Definition serialize_user (user : User) : blob := Jsonpickle.encode user.
Definition deserialize_user (user_json : blob) : res User :=
  Jsonpickle.decode user_json.

(** The value of the [sub] claim as a user name.  [jwt.decode] lets only a
    string through ([Jose.validate_sub]), so the first two branches are the
    ones that matter; see [decode_sub]. *)
Definition checked_username (sub : jval) : M string :=
  match sub with
  | JStr s => mret s
  | JNull => raise credentials_exception
  | _ => raise TypeError
  end.

(** [user.refresh_token] where [user] may be [None]. *)
Definition getattr_refresh_token (user : option (nat * User))
    : M (option token) :=
  match user with
  | Some (_, u) => mret (refresh_token u)
  | None => raise (AttributeError "NoneType" "refresh_token")
  end.

Definition verify_refresh_token (refresh_token : token)
    : M (option (nat * User)) :=
  '(payload, username) ←
    try_except_JWTError
      (cfg ← get_settings;
       now ← datetime_now;
       payload ← lift (Jose.decode refresh_token (JWT_SECRET cfg)
                         [JWT_ALGORITHM cfg] now);
       sub ← subscript payload "sub";
       username ← checked_username sub;
       mret (payload, username))
      (raise credentials_exception);
  let token_type := payload !! "token_type" in
  if bool_decide (token_type ≠ Some (JStr "refresh")) then
    raise credentials_exception
  else
    user ← UserService.get_user_by_username username;
    stored ← getattr_refresh_token user;
    if bool_decide (stored ≠ Some refresh_token) then
      raise credentials_exception
    else mret user.

Definition get_current_user (token0 : token) : M User :=
  username ←
    try_except_JWTError
      (cfg ← get_settings;
       now ← datetime_now;
       payload ← lift (Jose.decode token0 (JWT_SECRET cfg)
                         [JWT_ALGORITHM cfg] now);
       sub ← subscript payload "sub";
       checked_username sub)
      (raise credentials_exception);
  user_json ← Redis.get username;
  match user_json with
  | None =>
      user ← UserService.get_user_by_username username;
      match user with
      | None => raise credentials_exception
      | Some (_, u) =>
          Redis.set username (serialize_user u);;
          Redis.expire username 3600;;
          mret u
      end
  | Some user_json => lift (deserialize_user user_json)
  end.

Definition get_current_admin_user (current_user : User) : res User :=
  if bool_decide (role current_user ≠ ADMIN) then
    Raise (HTTPException 403 "User does not have enough permissions" [])
  else Ok current_user.

(** ** Email service ([src/services/email.py]): the token of the
    verification mail *)

Definition verification_token (cfg : Settings) (email : string)
    (now_expire now_iat : Z) : token :=
  create_email_token cfg {["sub" := JStr email]} now_expire now_iat.

(** ** Routes ([src/api/auth.py]) *)

Inductive response :=
  | Message (message : string)
  | TokenModel (access_token refresh_token : token) (token_type : string).

#[global] Instance response_eq_dec : EqDecision response.
Proof. solve_decision. Defined.

Definition add_task (t : task) : M unit :=
  λ w, (Ok tt, with_tasks (background_tasks w ++ [t]) w).

Definition forget_password_message : string :=
  "If this user exists in our database, we have sent them an email with temporary password".
Definition request_email_message : string :=
  "If this user exists in our database, we have sent them a confirmation email".

(** The rate limit of the route is applied by middleware before the handler
    runs and is not part of it. *)
Definition forget_password (body_email : string) : M response :=
  user ← UserService.get_user_by_email body_email;
  match user with
  | Some (_, u) =>
      if negb (confirmed u) then
        raise (HTTPException 401 "Email is not confirmed" [])
      else
        generated_password ← generate_temp_password;
        hashed_password ← Hash.get_password_hash generated_password;
        UserService.update_hashed_password body_email hashed_password;;
        add_task (send_reset_password_email body_email generated_password)
  | None => mret tt
  end;;
  mret (Message forget_password_message).

Definition request_email (body_email base_url : string) : M response :=
  user ← UserService.get_user_by_email body_email;
  match user with
  | Some (_, u) =>
      if confirmed u then
        raise (HTTPException 400 "Email is already confirmed" [])
      else add_task (send_email (email u) (username u) base_url)
  | None => mret tt
  end;;
  mret (Message request_email_message).

Definition login_user (form_username form_password : string)
    : M response :=
  user ← UserService.get_user_by_username form_username;
  let invalid :=
    raise (HTTPException 401 "Invalid username or password"
             [("WWW-Authenticate", "Bearer")]) in
  match user with
  | None => invalid
  | Some (_, u) =>
      ok ← lift (Hash.verify_password form_password (hashed_password u));
      if negb ok then invalid
      else if negb (confirmed u) then
        raise (HTTPException 401 "Email is not confirmed" [])
      else
        cfg ← get_settings;
        now ← datetime_now;
        let access_token :=
          create_access_token cfg {["sub" := JStr (username u)]} None now in
        now ← datetime_now;
        let refresh_token :=
          create_refresh_token cfg {["sub" := JStr (username u)]} None now in
        UserService.update_refresh_token (email u) refresh_token;;
        mret (TokenModel access_token refresh_token "bearer")
  end.

Definition new_token (request_refresh_token : token) : M response :=
  user ← verify_refresh_token request_refresh_token;
  match user with
  | None =>
      raise (HTTPException 401 "Invalid or expired refresh token" [])
  | Some (_, u) =>
      cfg ← get_settings;
      now ← datetime_now;
      let new_access_token :=
        create_access_token cfg {["sub" := JStr (username u)]} None now in
      mret (TokenModel new_access_token request_refresh_token "bearer")
  end.

(** * Vocabulary of the properties *)

(** ** Token lifetimes and claim sets *)

(** The lifetime [create_access_token] gives a token, in seconds. *)
Definition access_ttl (cfg : Settings) (expires_delta : option Z) : Z :=
  match truthy_delta expires_delta with
  | Some d => d
  | None => JWT_EXPIRATION_SECONDS cfg
  end.

Definition refresh_ttl (cfg : Settings) (expires_delta : option Z) : Z :=
  match truthy_delta expires_delta with
  | Some d => d
  | None => REFRESH_TOKEN_EXPIRATION_SECONDS cfg
  end.

Definition kind_claims (kind sub : string) (iat exp : Z) : claims :=
  <["token_type" := JStr kind]>
    (<["iat" := JInt iat]> (<["exp" := JInt exp]> {["sub" := JStr sub]})).

(** ** Sample data: the account of the integration tests *)

Definition agent007 : User :=
  mkUser 1 "agent007@gmail.com" "agent007" (BcryptHash 7 "Testtest1!") 0
         None true ADMIN None.

Definition world0 : World :=
  mkWorld (default_settings "s3cr3t") false 5000000
          [3; 1; 4; 1; 5; 9; 2; 6; 5; 3; 5; 8; 9; 7; 9; 3]%nat
          [agent007] ∅ [] [].

Definition refresh_at (now : Z) : token :=
  create_refresh_token (default_settings "s3cr3t")
    {["sub" := JStr "agent007"]} None now.

Definition access_at (now : Z) : token :=
  create_access_token (default_settings "s3cr3t")
    {["sub" := JStr "agent007"]} None now.

(** The state after a login at the clock of [world0] and the state after a
    second login one second later. *)
Definition world1 : World :=
  (login_user "agent007" "Testtest1!" world0).2.
Definition world2 : World :=
  (login_user "agent007" "Testtest1!" (with_clock 6000000 world1)).2.

(** A cache entry that jsonpickle cannot decode, in front of the table that
    holds the account. *)
Definition world_garbled : World :=
  with_redis {["agent007" := (Bytes "garbage", None)]} world1.

(** ** Observations on the log *)

Definition is_store_lookup (e : event) : bool :=
  match e with DbExecute _ _ => true | _ => false end.

Definition store_lookups (l : list event) : nat :=
  List.length (List.filter is_store_lookup l).

(** The state [get_current_user] leaves behind after a cache miss for
    [name] that the user table answers with [u]. *)
Definition cache_filled (name : string) (u : User) (w : World) : World :=
  mkWorld (settings w) (pytest w) (clock w) (entropy w) (db w)
    (<[name := (Pickled u, Some (clock w + timedelta_seconds 3600))]>
       (redis w))
    (log w ++ [RedisGet name; DbExecute ByUsername name;
               RedisSet name (Pickled u); RedisExpire name 3600])
    (background_tasks w).

(** The row of the account once the login of [world0] has stored its
    refresh token. *)
Definition agent007_logged_in : User :=
  set_refresh_token (Some (refresh_at 5000000)) agent007.

(** ** Vocabulary of the password properties *)

(** [w'] differs from [w] at most in the random draws it has left. *)
Definition same_but_entropy (w w' : World) : Prop :=
  w' = with_entropy (entropy w') w.

Definition chars (s : string) : list ascii := list_ascii_of_string s.

Definition has_char_of (alphabet : list ascii) (s : string) : Prop :=
  ∃ c, c ∈ chars s ∧ c ∈ alphabet.


(** The account before its email address is confirmed. *)
Definition agent007_unconfirmed : User :=
  mkUser 1 "agent007@gmail.com" "agent007" (BcryptHash 7 "Testtest1!") 0
         None false ADMIN None.

(** * The rest of the user store, the email confirmation and the account
    routes *)

Definition set_confirmed (b : bool) (u : User) : User :=
  mkUser (id u) (email u) (username u) (hashed_password u) (created_at u)
         (avatar u) b (role u) (refresh_token u).

Definition set_avatar (a : option string) (u : User) : User :=
  mkUser (id u) (email u) (username u) (hashed_password u) (created_at u)
         a (confirmed u) (role u) (refresh_token u).

(** [src/repository/users.py], continued. *)
Module UserRepositoryMore.

Definition confirm_email (e : string) : M unit :=
  user ← UserRepository.get_user_by_email e;
  match user with
  | None => raise (AttributeError "NoneType" "confirmed")
  | Some (i, u) =>
      assign i (set_confirmed true u);;
      emit DbCommit
  end.

Definition update_avatar_url (e url : string) : M (option (nat * User)) :=
  user ← UserRepository.get_user_by_email e;
  match user with
  | Some (i, u) =>
      let u' := set_avatar (Some url) u in
      assign i u';;
      emit DbCommit;;
      emit (DbRefresh i);;
      mret (Some (i, u'))
  | None => mret None
  end.

End UserRepositoryMore.

(** [src/services/users.py], continued. *)
Module UserServiceMore.

Definition confirm_email (e : string) : M unit :=
  UserRepositoryMore.confirm_email e.

Definition update_avatar_url (e url : string) : M (option (nat * User)) :=
  UserRepositoryMore.update_avatar_url e url.

End UserServiceMore.

(** The [sub] claim as the address it names.  [jwt.decode] lets only a
    string through, see [decode_sub]; the other branch is not reached. *)
Definition claim_string (sub : jval) : M string :=
  match sub with
  | JStr s => mret s
  | _ => raise TypeError
  end.

(** [src/services/auth.py], [get_email_from_token] *)
Definition get_email_from_token (token0 : token) : M string :=
  try_except_JWTError
    (cfg ← get_settings;
     now ← datetime_now;
     payload ← lift (Jose.decode token0 (JWT_SECRET cfg)
                       [JWT_ALGORITHM cfg] now);
     sub ← subscript payload "sub";
     claim_string sub)
    (raise (HTTPException 422 "Invalid token for email verification" [])).

(** [src/api/auth.py], [confirm_email] *)
Definition confirm_email (token0 : token) : M response :=
  e ← get_email_from_token token0;
  user ← UserService.get_user_by_email e;
  match user with
  | None => raise (HTTPException 400 "Verification error" [])
  | Some (_, u) =>
      if confirmed u then
        raise (HTTPException 400 "Email is already confirmed" [])
      else
        UserServiceMore.confirm_email e;;
        mret (Message "Email was confirmed")
  end.

(** The [User] object a handler is given.  [get_current_user] hands over
    either the object it unpickled from the cache, which no session knows,
    or the object the session of the request loaded from a row.  A later
    query of that session for the same row yields that same object, so an
    assignment the repository makes to the row shows in it. *)
Inductive user_object :=
  | Detached (u : User)
  | Persistent (row : nat) (u : User).

(** The attribute values of the object in a state: those of its row, as
    long as the table has it. *)
Definition value_of (user : user_object) (w : World) : User :=
  match user with
  | Detached u => u
  | Persistent i u => default u (db w !! i)
  end.

Definition getattr (user : user_object) : M User :=
  λ w, (Ok (value_of user w), w).

(** [get_current_user], with the object it returns told apart. *)
Definition get_current_user_object (token0 : token) : M user_object :=
  username ←
    try_except_JWTError
      (cfg ← get_settings;
       now ← datetime_now;
       payload ← lift (Jose.decode token0 (JWT_SECRET cfg)
                         [JWT_ALGORITHM cfg] now);
       sub ← subscript payload "sub";
       checked_username sub)
      (raise credentials_exception);
  user_json ← Redis.get username;
  match user_json with
  | None =>
      user ← UserService.get_user_by_username username;
      match user with
      | None => raise credentials_exception
      | Some (i, u) =>
          Redis.set username (serialize_user u);;
          Redis.expire username 3600;;
          mret (Persistent i u)
      end
  | Some user_json =>
      u ← lift (deserialize_user user_json);
      mret (Detached u)
  end.

(** [src/api/users.py].  A handler receives the user its dependency
    resolved from the bearer token; the rate limits are applied before the
    handlers and are not part of them. *)
Definition me (user : User) : M User := mret user.

(** The handler returns the object it was given; the response is made of
    the values the object has then. *)
Definition update_user_password (body_old_password body_new_password : string)
    (user : user_object) : M User :=
  u ← getattr user;
  ok ← lift (Hash.verify_password body_old_password (hashed_password u));
  (if ok : bool then
     u ← getattr user;
     h ← Hash.get_password_hash body_new_password;
     UserService.update_hashed_password (email u) h
   else (mret tt : M unit));;
  getattr user.

(** [avatar_url] is what [UploadFileService.upload_file] returned. *)
Definition update_avatar_user (avatar_url : string) (user : User)
    : M (option (nat * User)) :=
  UserServiceMore.update_avatar_url (email user) avatar_url.

(** A route with its dependency chain: the bearer token is resolved first,
    then the admin gate where the route asks for it, then the handler. *)
Definition me_route (token0 : token) : M User :=
  user ← get_current_user token0;
  me user.

Definition update_user_password_route (token0 : token)
    (body_old_password body_new_password : string) : M User :=
  user ← get_current_user_object token0;
  update_user_password body_old_password body_new_password user.

Definition update_avatar_user_route (token0 : token) (avatar_url : string)
    : M (option (nat * User)) :=
  user ← get_current_user token0;
  admin ← lift (get_current_admin_user user);
  update_avatar_user avatar_url admin.

(** The columns a unique constraint or the primary key is on. *)
Definition row_keys (u : User) : Z * string * string :=
  (id u, email u, username u).

(** The account as a plain user, and the table before the account
    exists. *)
Definition agent007_user : User :=
  mkUser 1 "agent007@gmail.com" "agent007" (BcryptHash 7 "Testtest1!") 0
         None true USER None.

Definition world_unconfirmed : World := with_db [agent007_unconfirmed] world0.

(** A call that leaves an observation [proj] of the state as it was,
    whatever it returns. *)
Definition preserves {S A} (proj : World → S) (m : M A) : Prop :=
  ∀ w, proj (m w).2 = proj w.

(** The key columns of every row, in table order. *)
Definition key_columns (w : World) : list (Z * string * string) :=
  row_keys <$> db w.

(** The characters a temporary password is drawn from. *)
Definition password_alphabet : list ascii :=
  (ascii_letters ++ digits ++ symbols)%list.

(** The account's snapshot in the cache, as [get_current_user] leaves it
    after the login of [world0]. *)
Definition world_cached : World :=
  cache_filled "agent007" agent007_logged_in world1.

(** [except JWTError] turns a [JWTError] into the handler's exception and
    lets every other exception pass. *)
Definition caught (handler e : exn) : exn :=
  match e with
  | JWTError _ => handler
  | _ => e
  end.

(** A secret that bcrypt digests: at most 4096 bytes and none of them
    NUL. *)
Definition bcrypt_accepts (s : string) : bool :=
  (Passlib.bytes_len s <=? Passlib.MAX_PASSWORD_SIZE)%nat
  && negb (Passlib.has_nul s).

(** A password with a NUL byte in it. *)
Definition nul_password : string :=
  String "S" (String Ascii.zero "omeNewPass1!").

(** A signed token whose [exp] claim is [null]. *)
Definition token_null_exp : token :=
  Jws (<["exp" := JNull]> {["sub" := JStr "agent007"]}) "s3cr3t" "HS256".

(** The state after a second login of the account within the clock second
    of the first. *)
Definition world_relogin : World :=
  (login_user "agent007" "Testtest1!" (with_clock 5999999 world1)).2.

(** Unfolding of the monad and of the small helpers of a call. *)
Ltac run :=
  unfold mbind, M_bind, mret, M_ret, raise, lift, get_settings, datetime_now,
    emit, subscript, checked_username, try_except_JWTError; simpl.

(** * Properties *)

(** ** Clock arithmetic *)

Section time.

Lemma timegm_add_seconds (now d : Z) :
  timegm (now + timedelta_seconds d) = timegm now + d.
Proof. unfold timegm, timedelta_seconds. by rewrite Z.div_add. Qed.

Lemma timegm_add_days (now d : Z) :
  timegm (now + timedelta_days d) = timegm now + d * 86400.
Proof. unfold timegm, timedelta_days. by rewrite Z.div_add. Qed.

End time.

(** ** Token codec *)

Section codec.

Variable cfg : Settings.

Lemma access_expire_ttl delta now :
  timegm (access_expire cfg delta now) = timegm now + access_ttl cfg delta.
Proof.
  unfold access_expire, access_ttl.
  destruct (truthy_delta delta); apply timegm_add_seconds.
Qed.

Lemma refresh_expire_ttl delta now :
  timegm (refresh_expire cfg delta now) = timegm now + refresh_ttl cfg delta.
Proof.
  unfold refresh_expire, refresh_ttl.
  destruct (truthy_delta delta); apply timegm_add_seconds.
Qed.

Lemma create_access_token_claims sub delta now :
  create_access_token cfg {["sub" := JStr sub]} delta now =
  Jws (kind_claims "access" sub (timegm now)
         (timegm now + access_ttl cfg delta))
      (JWT_SECRET cfg) (JWT_ALGORITHM cfg).
Proof. rewrite <- access_expire_ttl. reflexivity. Qed.

Lemma create_refresh_token_claims sub delta now :
  create_refresh_token cfg {["sub" := JStr sub]} delta now =
  Jws (kind_claims "refresh" sub (timegm now)
         (timegm now + refresh_ttl cfg delta))
      (JWT_SECRET cfg) (JWT_ALGORITHM cfg).
Proof. rewrite <- refresh_expire_ttl. reflexivity. Qed.

Lemma decode_own_key (c : claims) (now : Z) :
  Jose.decode (Jws c (JWT_SECRET cfg) (JWT_ALGORITHM cfg)) (JWT_SECRET cfg)
    [JWT_ALGORITHM cfg] now = Jose.validate_claims c now.
Proof.
  unfold Jose.decode.
  rewrite bool_decide_eq_true_2 by apply list_elem_of_singleton, eq_refl.
  by rewrite bool_decide_eq_true_2.
Qed.

Lemma validate_kind_claims kind sub iat exp now :
  Jose.validate_claims (kind_claims kind sub iat exp) now =
  if exp <? timegm now then Raise (JWTError ExpiredSignatureError)
  else Ok (kind_claims kind sub iat exp).
Proof.
  unfold Jose.validate_claims, Jose.validate_exp.
  change (kind_claims kind sub iat exp !! "exp") with (Some (JInt exp)).
  change (Jose.validate_iat (kind_claims kind sub iat exp)) with (Ok tt).
  change (Jose.validate_nbf (kind_claims kind sub iat exp) now) with (Ok tt).
  change (Jose.validate_aud (kind_claims kind sub iat exp)) with (Ok tt).
  change (Jose.validate_sub (kind_claims kind sub iat exp)) with (Ok tt).
  change (Jose.validate_jti (kind_claims kind sub iat exp)) with (Ok tt).
  change (Jose.validate_at_hash (kind_claims kind sub iat exp)) with (Ok tt).
  simpl. by destruct (exp <? timegm now).
Qed.

Lemma decode_access_token sub delta now now' :
  Jose.decode (create_access_token cfg {["sub" := JStr sub]} delta now)
    (JWT_SECRET cfg) [JWT_ALGORITHM cfg] now' =
  if timegm now + access_ttl cfg delta <? timegm now'
  then Raise (JWTError ExpiredSignatureError)
  else Ok (kind_claims "access" sub (timegm now)
             (timegm now + access_ttl cfg delta)).
Proof.
  by rewrite create_access_token_claims, decode_own_key,
    validate_kind_claims.
Qed.

End codec.

(** A claim set that [jwt.decode] returns has a string for [sub], if it has
    one at all. *)
Lemma decode_sub (t : token) key algs now (payload : claims) :
  Jose.decode t key algs now = Ok payload →
  payload !! "sub" = None ∨ ∃ s, payload !! "sub" = Some (JStr s).
Proof.
  destruct t as [c k a|s]; [|discriminate]. simpl.
  repeat case_bool_decide; try discriminate.
  unfold Jose.validate_claims.
  destruct (Jose.validate_iat c); [|discriminate].
  destruct (Jose.validate_nbf c now); [|discriminate].
  destruct (Jose.validate_exp c now); [|discriminate].
  destruct (Jose.validate_aud c); [|discriminate].
  unfold Jose.validate_sub.
  destruct (c !! "sub") as [[]|] eqn:Hsub; try discriminate;
    (destruct (Jose.validate_jti c); [|discriminate]);
    (destruct (Jose.validate_at_hash c); [|discriminate]);
    intros [= <-]; eauto.
Qed.



(** ** Running calls *)

(** Whatever the key, the algorithms and the clock, a token of this program
    that [jwt.decode] refuses is refused with a [JWTError]. *)
Lemma decode_kind_claims_raises kind sub iat exp k a key algs now e :
  Jose.decode (Jws (kind_claims kind sub iat exp) k a) key algs now = Raise e →
  ∃ j, e = JWTError j.
Proof.
  simpl. repeat case_bool_decide; try (intros [= <-]; eauto).
  rewrite validate_kind_claims.
  destruct (exp <? timegm now); intros [= <-]; eauto.
Qed.


Section refresh.

Variables (w : World) (t : token).

Let decoded : res claims :=
  Jose.decode t (JWT_SECRET (settings w)) [JWT_ALGORITHM (settings w)]
    (clock w).

(** What [verify_refresh_token] does with a token that decodes. *)
Lemma verify_refresh_token_decoded (payload : claims) (name : string) :
  decoded = Ok payload →
  payload !! "sub" = Some (JStr name) →
  verify_refresh_token t w =
  if bool_decide (payload !! "token_type" ≠ Some (JStr "refresh")) then
    (Raise credentials_exception, w)
  else
    let w' := with_log (log w ++ [DbExecute ByUsername name]) w in
    match scalar_one_or_none (select_where (has_username name) 0 (db w)) with
    | Raise e => (Raise e, w')
    | Ok None => (Raise (AttributeError "NoneType" "refresh_token"), w')
    | Ok (Some (i, u)) =>
        if bool_decide (refresh_token u ≠ Some t) then
          (Raise credentials_exception, w')
        else (Ok (Some (i, u)), w')
    end.
Proof.
  unfold decoded. intros Hdec Hsub.
  unfold verify_refresh_token. run. rewrite Hdec, Hsub. simpl.
  case_bool_decide; [done|].
  unfold UserService.get_user_by_username,
    UserRepository.get_user_by_username, getattr_refresh_token.
  destruct (scalar_one_or_none _) as [[[i u]|]|e]; simpl; try done.
  by case_bool_decide.
Qed.

Lemma verify_refresh_token_undecodable (e : exn) :
  decoded = Raise e →
  verify_refresh_token t w = (Raise (caught credentials_exception e), w).
Proof.
  unfold decoded. intros Hdec.
  unfold verify_refresh_token. run. rewrite Hdec. by destruct e.
Qed.

End refresh.

(** ** The user store *)

Section store.

Variable p : User → bool.

Lemma select_where_lookup (rows : list User) (k j : nat) (u : User) :
  (j, u) ∈ select_where p k rows ↔
  ∃ n, j = (k + n)%nat ∧ rows !! n = Some u ∧ p u = true.
Proof.
  revert k. induction rows as [|x rows IH]; intros k; simpl.
  - split; [by intros ?%elem_of_nil | by intros (n & _ & ? & _)].
  - destruct (p x) eqn:Hx.
    + rewrite elem_of_cons, IH. split.
      * intros [[= -> ->]|(n & -> & Hn & Hp)].
        -- exists 0%nat. by rewrite Nat.add_0_r.
        -- exists (S n). split; [lia|done].
      * intros ([|n] & -> & Hn & Hp); simpl in Hn.
        -- left. rewrite Nat.add_0_r. congruence.
        -- right. exists n. split; [lia|done].
    + rewrite IH. split.
      * intros (n & -> & Hn & Hp). exists (S n). split; [lia|done].
      * intros ([|n] & -> & Hn & Hp); simpl in Hn; [congruence|].
        exists n. split; [lia|done].
Qed.

(** Writing a row that the filter treats alike changes that row of the
    result and no other. *)
Lemma select_where_insert (rows : list User) (k n : nat) (u u' : User) :
  rows !! n = Some u →
  p u' = p u →
  select_where p k (<[n := u']> rows) =
  (λ r : nat * User,
     if bool_decide (r.1 = (k + n)%nat) then (r.1, u') else r)
    <$> select_where p k rows.
Proof.
  revert k n. induction rows as [|x rows IH]; intros k n Hn Hp; [done|].
  destruct n as [|n]; simpl in *.
  - injection Hn as ->. rewrite Hp.
    assert (Hrest : (λ r : nat * User,
               if bool_decide (r.1 = (k + 0)%nat) then (r.1, u') else r)
              <$> select_where p (S k) rows = select_where p (S k) rows).
    { rewrite <- (list_fmap_id (select_where p (S k) rows)) at 2.
      apply list_fmap_ext. intros i [j y] Hj. simpl.
      apply list_elem_of_lookup_2, select_where_lookup in Hj
        as (m & -> & _).
      rewrite bool_decide_eq_false_2; [done|lia]. }
    destruct (p u); csimpl; rewrite Hrest; [|done].
    by rewrite bool_decide_eq_true_2 by lia.
  - rewrite (IH (S k) n Hn Hp).
    replace (S k + n)%nat with (k + S n)%nat by lia.
    destruct (p x); csimpl; [|done].
    by rewrite bool_decide_eq_false_2 by lia.
Qed.

Lemma select_where_unique_insert (rows : list User) (i : nat) (u u' : User) :
  select_where p 0 rows = [(i, u)] →
  p u' = p u →
  rows !! i = Some u ∧ select_where p 0 (<[i := u']> rows) = [(i, u')].
Proof.
  intros Hsel Hp.
  assert (Hi : rows !! i = Some u).
  { assert (Hin : (i, u) ∈ select_where p 0 rows) by (rewrite Hsel; apply list_elem_of_singleton, eq_refl).
    by apply select_where_lookup in Hin as (n & -> & Hn & _). }
  split; [done|].
  rewrite (select_where_insert rows 0 i u u' Hi Hp), Hsel. simpl.
  by rewrite bool_decide_eq_true_2.
Qed.

End store.

Lemma scalar_one_or_none_Some {A} (rows : list A) (r : A) :
  scalar_one_or_none rows = Ok (Some r) ↔ rows = [r].
Proof.
  destruct rows as [|x [|y rows]]; simpl; split; intros; simplify_eq; done.
Qed.

Lemma scalar_one_or_none_None {A} (rows : list A) :
  scalar_one_or_none rows = Ok None ↔ rows = [].
Proof.
  destruct rows as [|x [|y rows]]; simpl; split; intros; simplify_eq; done.
Qed.

Lemma select_by_username (rows : list User) name i u :
  (i, u) ∈ select_where (has_username name) 0 rows →
  rows !! i = Some u ∧ username u = name.
Proof.
  intros (n & -> & Hn & Hp)%select_where_lookup.
  by apply bool_decide_eq_true in Hp.
Qed.

Lemma decode_Jws_Ok c k a key algs now payload :
  Jose.decode (Jws c k a) key algs now = Ok payload → payload = c.
Proof.
  simpl. repeat case_bool_decide; try discriminate.
  unfold Jose.validate_claims.
  destruct (Jose.validate_iat c); [|discriminate].
  destruct (Jose.validate_nbf c now); [|discriminate].
  destruct (Jose.validate_exp c now); [|discriminate].
  destruct (Jose.validate_aud c); [|discriminate].
  destruct (Jose.validate_sub c); [|discriminate].
  destruct (Jose.validate_jti c); [|discriminate].
  destruct (Jose.validate_at_hash c); [|discriminate].
  simpl. congruence.
Qed.

(** ** Login *)

Lemma login_user_Ok (w w' : World) (name pw : string) (r : response) :
  login_user name pw w = (Ok r, w') →
  let rt :=
    create_refresh_token (settings w) {["sub" := JStr name]} None (clock w) in
  ∃ i u,
    select_where (has_username name) 0 (db w) = [(i, u)]
    ∧ Hash.verify_password pw (hashed_password u) = Ok true
    ∧ confirmed u = true
    ∧ r = TokenModel
            (create_access_token (settings w) {["sub" := JStr name]} None
               (clock w)) rt "bearer"
    ∧ db w' = <[i := set_refresh_token (Some rt) u]> (db w)
    ∧ select_where (has_username name) 0 (db w') =
      [(i, set_refresh_token (Some rt) u)].
Proof.
  unfold login_user, UserService.get_user_by_username,
    UserRepository.get_user_by_username. run.
  destruct (scalar_one_or_none (select_where (has_username name) 0 (db w)))
    as [[[i u]|]|e] eqn:Hsel; simpl; try discriminate.
  apply scalar_one_or_none_Some in Hsel.
  destruct (Hash.verify_password pw (hashed_password u)) as [[|]|e] eqn:Hv;
    simpl; try discriminate.
  destruct (confirmed u) eqn:Hc; simpl; try discriminate.
  unfold UserService.update_refresh_token,
    UserRepository.update_refresh_token, UserRepository.get_user_by_email,
    assign. run.
  destruct (scalar_one_or_none (select_where (has_email (email u)) 0 (db w)))
    as [[[j u2]|]|e] eqn:Hem; simpl; try discriminate.
  apply scalar_one_or_none_Some in Hem.
  intros [= <- <-]. simpl.
  assert (Hin : (i, u) ∈ select_where (has_username name) 0 (db w))
    by (rewrite Hsel; apply list_elem_of_singleton, eq_refl).
  destruct (select_by_username _ _ _ _ Hin) as [Hi Hname].
  assert (Hju : (j, u2) = (i, u)).
  { assert (Hin2 : (i, u) ∈ select_where (has_email (email u)) 0 (db w)).
    { apply select_where_lookup. exists i. split; [done|].
      split; [done|]. by apply bool_decide_eq_true. }
    rewrite Hem in Hin2. by apply list_elem_of_singleton in Hin2. }
  injection Hju as -> ->. rewrite Hname.
  exists i, u. repeat split; try done.
  by apply (select_where_unique_insert _ _ _ u).
Qed.

(** ** Refresh-token validation *)

Lemma verify_refresh_token_mismatch (w : World) (t : token)
    (payload : claims) (name : string) (i : nat) (u : User) :
  Jose.decode t (JWT_SECRET (settings w)) [JWT_ALGORITHM (settings w)]
    (clock w) = Ok payload →
  payload !! "sub" = Some (JStr name) →
  payload !! "token_type" = Some (JStr "refresh") →
  select_where (has_username name) 0 (db w) = [(i, u)] →
  refresh_token u ≠ Some t →
  verify_refresh_token t w =
  (Raise credentials_exception,
   with_log (log w ++ [DbExecute ByUsername name]) w).
Proof.
  intros Hdec Hsub Hkind Hsel Hne.
  rewrite (verify_refresh_token_decoded w t payload name Hdec Hsub).
  rewrite bool_decide_eq_false_2 by (by intros []).
  rewrite Hsel. simpl. by rewrite bool_decide_eq_true_2.
Qed.

(** Two logins at different seconds of the clock issue different refresh
    tokens, two at the same second under the same settings the same
    one. *)
Lemma refresh_tokens_differ (cfg cfg' : Settings) (sub : string)
    (now now' : Z) :
  timegm now ≠ timegm now' →
  create_refresh_token cfg {["sub" := JStr sub]} None now ≠
  create_refresh_token cfg' {["sub" := JStr sub]} None now'.
Proof.
  intros Hne. rewrite !create_refresh_token_claims. intros Heq.
  apply (f_equal (λ t, match t with
                       | Jws c _ _ => c !! "iat"
                       | Opaque _ => None
                       end)) in Heq.
  change (Some (JInt (timegm now)) = Some (JInt (timegm now'))) in Heq.
  congruence.
Qed.

Lemma refresh_tokens_agree (cfg : Settings) (sub : string) (now now' : Z) :
  timegm now = timegm now' →
  create_refresh_token cfg {["sub" := JStr sub]} None now =
  create_refresh_token cfg {["sub" := JStr sub]} None now'.
Proof. intros Heq. by rewrite !create_refresh_token_claims, Heq. Qed.

Lemma verify_refresh_token_after_login (w w1 v w2 w3 : World)
    (name pw1 pw2 : string) (a1 a2 t1 t2 : token) (b1 b2 : string) :
  login_user name pw1 w = (Ok (TokenModel a1 t1 b1), w1) →
  login_user name pw2 v = (Ok (TokenModel a2 t2 b2), w2) →
  timegm (clock w) ≠ timegm (clock v) →
  db w3 = db w2 →
  (verify_refresh_token t1 w3).1 = Raise credentials_exception.
Proof.
  intros (_ & _ & _ & _ & _ & [= _ Ht1 _] & _)%login_user_Ok.
  intros (i & u & _ & _ & _ & [= _ Ht2 _] & _ & Hsel)%login_user_Ok.
  intros Hclock Hdb.
  assert (Hne : t1 ≠ t2).
  { rewrite Ht1, Ht2. by apply refresh_tokens_differ. }
  rewrite create_refresh_token_claims in Ht1.
  destruct (Jose.decode t1 (JWT_SECRET (settings w3))
              [JWT_ALGORITHM (settings w3)] (clock w3)) as [payload|e]
    eqn:Hdec.
  - assert (Hp : payload = kind_claims "refresh" name (timegm (clock w))
        (timegm (clock w) + refresh_ttl (settings w) None)).
    { rewrite Ht1 in Hdec. by apply decode_Jws_Ok in Hdec. }
    rewrite (verify_refresh_token_decoded w3 t1 payload name Hdec)
      by (by rewrite Hp).
    rewrite bool_decide_eq_false_2 by (rewrite Hp; by intros []).
    rewrite Hdb, Hsel. simpl. rewrite <- Ht2.
    rewrite bool_decide_eq_true_2; [done|congruence].
  - rewrite (verify_refresh_token_undecodable w3 t1 e Hdec).
    rewrite Ht1 in Hdec.
    by destruct (decode_kind_claims_raises _ _ _ _ _ _ _ _ _ _ Hdec) as [j ->].
Qed.

(** C1: a refresh token that decodes, is of kind refresh and names an
    existing user, but is not the token stored for that user, is refused
    with the credentials exception (401); so is the refresh token of an
    earlier login once a login of the same user at another second of the
    clock has stored its own, whatever the clock and the cache are then.
    Two logins at the same second under the same settings return one and
    the same refresh token. *)
Theorem stale_refresh_token_rejected :
  (∀ (w : World) (t : token) (payload : claims) (name : string) (i : nat)
     (u : User),
     Jose.decode t (JWT_SECRET (settings w)) [JWT_ALGORITHM (settings w)]
       (clock w) = Ok payload →
     payload !! "sub" = Some (JStr name) →
     payload !! "token_type" = Some (JStr "refresh") →
     select_where (has_username name) 0 (db w) = [(i, u)] →
     refresh_token u ≠ Some t →
     (verify_refresh_token t w).1 = Raise credentials_exception)
  ∧ (∀ (w w1 v w2 w3 : World) (name pw1 pw2 : string)
       (a1 a2 t1 t2 : token) (b1 b2 : string),
     login_user name pw1 w = (Ok (TokenModel a1 t1 b1), w1) →
     login_user name pw2 v = (Ok (TokenModel a2 t2 b2), w2) →
     timegm (clock w) ≠ timegm (clock v) →
     db w3 = db w2 →
     (verify_refresh_token t1 w3).1 = Raise credentials_exception)
  ∧ (∀ (w w1 v w2 : World) (name pw1 pw2 : string)
       (a1 a2 t1 t2 : token) (b1 b2 : string),
     login_user name pw1 w = (Ok (TokenModel a1 t1 b1), w1) →
     login_user name pw2 v = (Ok (TokenModel a2 t2 b2), w2) →
     settings v = settings w →
     timegm (clock v) = timegm (clock w) →
     t2 = t1).
Proof.
  split; [|split].
  - intros w t payload name i u Hdec Hsub Hkind Hsel Hne.
    by rewrite (verify_refresh_token_mismatch w t payload name i u).
  - apply verify_refresh_token_after_login.
  - intros w w1 v w2 name pw1 pw2 a1 a2 t1 t2 b1 b2.
    intros (_ & _ & _ & _ & _ & [= _ -> _] & _)%login_user_Ok.
    intros (_ & _ & _ & _ & _ & [= _ -> _] & _)%login_user_Ok.
    intros -> Hclock. by apply refresh_tokens_agree.
Qed.

Lemma stale_refresh_token_rejected_witness :
  (verify_refresh_token (refresh_at 5000000)
     (with_db [set_refresh_token (Some (refresh_at 6000000)) agent007]
        world0)).1 = Raise credentials_exception
  ∧ (verify_refresh_token (refresh_at 5000000) world2).1 =
    Raise credentials_exception
  ∧ refresh_at 5999999 = refresh_at 5000000.
Proof.
  destruct stale_refresh_token_rejected as (Hgen & Hlogin & Hsame).
  split; [|split].
  - apply (Hgen (with_db [set_refresh_token (Some (refresh_at 6000000))
                            agent007] world0)
             (refresh_at 5000000)
             (kind_claims "refresh" "agent007" 5 604805) "agent007" 0%nat
             (set_refresh_token (Some (refresh_at 6000000)) agent007)).
    + reflexivity.
    + reflexivity.
    + reflexivity.
    + reflexivity.
    + apply (bool_decide_eq_false_1 _). reflexivity.
  - apply (Hlogin world0 world1 (with_clock 6000000 world1) world2 world2
             "agent007" "Testtest1!" "Testtest1!"
             (access_at 5000000) (access_at 6000000)
             (refresh_at 5000000) (refresh_at 6000000) "bearer" "bearer").
    + reflexivity.
    + reflexivity.
    + discriminate.
    + reflexivity.
  - apply (Hsame world0 world1 (with_clock 5999999 world1) world_relogin
             "agent007" "Testtest1!" "Testtest1!"
             (access_at 5000000) (access_at 5999999)
             (refresh_at 5000000) (refresh_at 5999999) "bearer" "bearer").
    + reflexivity.
    + reflexivity.
    + reflexivity.
    + reflexivity.
Defined.

(** A second login within the clock second of the first stores the very
    token the first login returned, and that token passes the validation
    afterwards: the earlier token is not superseded. *)
Lemma relogin_same_second_keeps_token :
  (login_user "agent007" "Testtest1!" world0).1 =
    Ok (TokenModel (access_at 5000000) (refresh_at 5000000) "bearer")
  ∧ (login_user "agent007" "Testtest1!" (with_clock 5999999 world1)).1 =
    Ok (TokenModel (access_at 5999999) (refresh_at 5000000) "bearer")
  ∧ (verify_refresh_token (refresh_at 5000000) world_relogin).1 =
    Ok (Some (0%nat, agent007_logged_in)).
Proof. repeat split. Qed.

(** C3: when the token decodes with kind refresh but no row has the
    subject's user name, [user] is [None] and reading [user.refresh_token]
    raises [AttributeError]; the call does not end in the credentials
    exception. *)
Theorem verify_refresh_token_unknown_user (w : World) (t : token)
    (payload : claims) (name : string) :
  Jose.decode t (JWT_SECRET (settings w)) [JWT_ALGORITHM (settings w)]
    (clock w) = Ok payload →
  payload !! "sub" = Some (JStr name) →
  payload !! "token_type" = Some (JStr "refresh") →
  select_where (has_username name) 0 (db w) = [] →
  (verify_refresh_token t w).1 =
    Raise (AttributeError "NoneType" "refresh_token")
  ∧ (verify_refresh_token t w).1 ≠ Raise credentials_exception.
Proof.
  intros Hdec Hsub Hkind Hsel.
  rewrite (verify_refresh_token_decoded w t payload name Hdec Hsub).
  rewrite bool_decide_eq_false_2 by (by intros []).
  rewrite Hsel. by simpl.
Qed.

Lemma verify_refresh_token_unknown_user_witness :
  (verify_refresh_token (refresh_at 5000000) (with_db [] world0)).1 =
    Raise (AttributeError "NoneType" "refresh_token")
  ∧ (verify_refresh_token (refresh_at 5000000) (with_db [] world0)).1 ≠
    Raise credentials_exception.
Proof.
  apply (verify_refresh_token_unknown_user (with_db [] world0)
           (refresh_at 5000000)
           (kind_claims "refresh" "agent007" 5 604805) "agent007").
  - reflexivity.
  - reflexivity.
  - reflexivity.
  - reflexivity.
Defined.

(** ** The refresh route *)

(** C9: a refresh that succeeds answers with the presented refresh token,
    which is the one stored for its subject, and with an access token
    issued at the current clock: a token other than the refresh token,
    which [jwt.decode] accepts under the key of the settings until the
    access lifetime has passed and which then yields the same subject, the
    kind [access], and the current second as [iat]; the user table is left
    as it was. *)
Theorem new_token_reuses_refresh_token (w w' : World) (t : token)
    (resp : response) :
  new_token t w = (Ok resp, w') →
  ∃ (payload : claims) (name : string) (i : nat) (u : User) (a : token),
    Jose.decode t (JWT_SECRET (settings w)) [JWT_ALGORITHM (settings w)]
      (clock w) = Ok payload
    ∧ payload !! "sub" = Some (JStr name)
    ∧ db w !! i = Some u ∧ username u = name ∧ refresh_token u = Some t
    ∧ resp = TokenModel a t "bearer"
    ∧ a = create_access_token (settings w) {["sub" := JStr name]} None
            (clock w)
    ∧ a ≠ t
    ∧ (∀ now',
         timegm now' ≤ timegm (clock w) + JWT_EXPIRATION_SECONDS (settings w) →
         ∃ c, Jose.decode a (JWT_SECRET (settings w))
                [JWT_ALGORITHM (settings w)] now' = Ok c
           ∧ c !! "sub" = Some (JStr name)
           ∧ c !! "token_type" = Some (JStr "access")
           ∧ c !! "iat" = Some (JInt (timegm (clock w)))
           ∧ c !! "exp" =
             Some (JInt (timegm (clock w)
                         + JWT_EXPIRATION_SECONDS (settings w))))
    ∧ db w' = db w.
Proof.
  unfold new_token. unfold mbind at 1, M_bind at 1.
  destruct (Jose.decode t (JWT_SECRET (settings w))
              [JWT_ALGORITHM (settings w)] (clock w)) as [payload|e] eqn:Hdec.
  - destruct (payload !! "sub") as [sub|] eqn:Hsub.
    + destruct (decode_sub _ _ _ _ _ Hdec) as [Hn|[name Hname]];
        [congruence|].
      rewrite (verify_refresh_token_decoded w t payload name Hdec Hname).
      case_bool_decide as Hkind; [discriminate|].
      destruct (scalar_one_or_none _) as [[[i u]|]|e] eqn:Hsel;
        try discriminate.
      case_bool_decide as Hstored; [discriminate|]. run.
      intros [= <- <-]. simpl.
      apply scalar_one_or_none_Some in Hsel.
      assert (Hin : (i, u) ∈ select_where (has_username name) 0 (db w))
        by (rewrite Hsel; apply list_elem_of_singleton, eq_refl).
      destruct (select_by_username _ _ _ _ Hin) as [Hi Hu].
      exists payload, name, i, u. eexists. rewrite Hu.
      split; [done|]. split; [done|]. split; [done|]. split; [done|].
      split; [done|]. split; [reflexivity|].
      split; [reflexivity|]. split; [|split; [|done]].
      * rewrite create_access_token_claims. intros <-.
        apply decode_Jws_Ok in Hdec. by rewrite Hdec in Hkind.
      * intros now' Hle. eexists. rewrite decode_access_token.
        unfold access_ttl. simpl.
        destruct (Z.ltb_spec
                    (timegm (clock w) + JWT_EXPIRATION_SECONDS (settings w))
                    (timegm now')); [lia|].
        repeat split.
    + unfold verify_refresh_token. run. rewrite Hdec. simpl.
      rewrite Hsub. simpl. discriminate.
  - rewrite (verify_refresh_token_undecodable w t e Hdec). discriminate.
Qed.

Lemma new_token_reuses_refresh_token_witness :
  ∃ (payload : claims) (name : string) (i : nat) (u : User) (a : token),
    Jose.decode (refresh_at 5000000) (JWT_SECRET (settings world1))
      [JWT_ALGORITHM (settings world1)] (clock world1) = Ok payload
    ∧ payload !! "sub" = Some (JStr name)
    ∧ db world1 !! i = Some u ∧ username u = name
    ∧ refresh_token u = Some (refresh_at 5000000)
    ∧ TokenModel (access_at 5000000) (refresh_at 5000000) "bearer" =
      TokenModel a (refresh_at 5000000) "bearer"
    ∧ a = create_access_token (settings world1) {["sub" := JStr name]} None
            (clock world1)
    ∧ a ≠ refresh_at 5000000
    ∧ (∀ now',
         timegm now' ≤
           timegm (clock world1) + JWT_EXPIRATION_SECONDS (settings world1) →
         ∃ c, Jose.decode a (JWT_SECRET (settings world1))
                [JWT_ALGORITHM (settings world1)] now' = Ok c
           ∧ c !! "sub" = Some (JStr name)
           ∧ c !! "token_type" = Some (JStr "access")
           ∧ c !! "iat" = Some (JInt (timegm (clock world1)))
           ∧ c !! "exp" =
             Some (JInt (timegm (clock world1)
                         + JWT_EXPIRATION_SECONDS (settings world1))))
    ∧ db (with_log (log world1 ++ [DbExecute ByUsername "agent007"]) world1)
      = db world1.
Proof.
  apply (new_token_reuses_refresh_token world1
           (with_log (log world1 ++ [DbExecute ByUsername "agent007"]) world1)
           (refresh_at 5000000)
           (TokenModel (access_at 5000000) (refresh_at 5000000) "bearer")).
  reflexivity.
Defined.

(** ** Access-token resolution *)

Section resolve.

Variables (w : World) (t : token) (payload : claims) (name : string).

Hypothesis Hdec :
  Jose.decode t (JWT_SECRET (settings w)) [JWT_ALGORITHM (settings w)]
    (clock w) = Ok payload.
Hypothesis Hsub : payload !! "sub" = Some (JStr name).

Lemma get_current_user_cached (b : blob) :
  Redis.peek name w = Some b →
  get_current_user t w =
  (deserialize_user b, with_log (log w ++ [RedisGet name]) w).
Proof.
  intros Hpeek. unfold get_current_user. run. rewrite Hdec. simpl.
  rewrite Hsub. simpl. unfold Redis.get. simpl. rewrite Hpeek.
  by destruct (deserialize_user b).
Qed.

Lemma get_current_user_miss :
  Redis.peek name w = None →
  get_current_user t w =
  match scalar_one_or_none (select_where (has_username name) 0 (db w)) with
  | Ok (Some (_, u)) => (Ok u, cache_filled name u w)
  | Ok None =>
      (Raise credentials_exception,
       with_log (log w ++ [RedisGet name; DbExecute ByUsername name]) w)
  | Raise e =>
      (Raise e,
       with_log (log w ++ [RedisGet name; DbExecute ByUsername name]) w)
  end.
Proof.
  intros Hpeek. unfold get_current_user. run. rewrite Hdec. simpl.
  rewrite Hsub. simpl. unfold Redis.get. simpl. rewrite Hpeek.
  unfold UserService.get_user_by_username,
    UserRepository.get_user_by_username. simpl.
  destruct (scalar_one_or_none _) as [[[i u]|]|e]; simpl;
    unfold with_log; simpl; rewrite <- ?(assoc_L (++)); try done.
  unfold Redis.expire, Redis.peek, with_redis, with_log, cache_filled. simpl.
  rewrite lookup_insert_eq. simpl.
  by rewrite insert_insert_eq, <- !(assoc_L (++)).
Qed.

End resolve.

Lemma peek_cache_filled (name : string) (u : User) (w : World) (now' : Z) :
  now' ≤ clock w + timedelta_seconds 3600 →
  Redis.peek name (with_clock now' (cache_filled name u w)) =
  Some (Pickled u).
Proof.
  intros Hle. unfold Redis.peek, Redis.alive. simpl.
  rewrite lookup_insert_eq. simpl.
  destruct (Z.ltb_spec (clock w + timedelta_seconds 3600) now'); [lia|done].
Qed.

(** C2: when the token decodes and the cache holds an entry for the subject
    that jsonpickle cannot decode, the call ends in that decoding error
    after the single cache read: the user table is not consulted and no
    identity is returned. *)
Theorem get_current_user_undecodable_entry (w : World) (t : token)
    (payload : claims) (name : string) (b : blob) (e : exn) :
  Jose.decode t (JWT_SECRET (settings w)) [JWT_ALGORITHM (settings w)]
    (clock w) = Ok payload →
  payload !! "sub" = Some (JStr name) →
  Redis.peek name w = Some b →
  deserialize_user b = Raise e →
  get_current_user t w = (Raise e, with_log (log w ++ [RedisGet name]) w).
Proof.
  intros Hdec Hsub Hpeek Hbad.
  by rewrite (get_current_user_cached w t payload name Hdec Hsub b Hpeek),
    Hbad.
Qed.

Lemma get_current_user_undecodable_entry_witness :
  get_current_user (access_at 5000000) world_garbled =
  (Raise JSONDecodeError,
   with_log (log world_garbled ++ [RedisGet "agent007"]) world_garbled).
Proof.
  apply (get_current_user_undecodable_entry world_garbled
           (access_at 5000000) (kind_claims "access" "agent007" 5 3605)
           "agent007" (Bytes "garbage") JSONDecodeError).
  - reflexivity.
  - reflexivity.
  - reflexivity.
  - reflexivity.
Defined.

(** With the same token and the same user table, an entry that cannot be
    decoded makes the call fail where a missing entry makes it succeed. *)
Lemma garbled_entry_is_not_a_miss :
  (get_current_user (access_at 5000000) world_garbled).1 =
    Raise JSONDecodeError
  ∧ (get_current_user (access_at 5000000) (with_redis ∅ world_garbled)).1 =
    Ok agent007_logged_in.
Proof. split; reflexivity. Qed.

(** C6: with a token that decodes, a live entry that unpickles to [u] is
    answered from the cache, the only outside call being the cache read;
    with no live entry the user table is read once and, when it has the
    user, the entry is written once with [SET] and [EXPIRE 3600] before
    the user is returned, after which any call for the same subject made
    while the entry lives is answered from the cache; when the table has
    no such user the call ends in the credentials exception. *)
Theorem get_current_user_cache (w : World) (t : token) (payload : claims)
    (name : string) :
  Jose.decode t (JWT_SECRET (settings w)) [JWT_ALGORITHM (settings w)]
    (clock w) = Ok payload →
  payload !! "sub" = Some (JStr name) →
  (∀ u, Redis.peek name w = Some (Pickled u) →
     get_current_user t w = (Ok u, with_log (log w ++ [RedisGet name]) w))
  ∧ (Redis.peek name w = None →
     (∀ i u, select_where (has_username name) 0 (db w) = [(i, u)] →
        get_current_user t w = (Ok u, cache_filled name u w)
        ∧ ∀ t' payload' now',
            now' ≤ clock w + timedelta_seconds 3600 →
            Jose.decode t' (JWT_SECRET (settings w))
              [JWT_ALGORITHM (settings w)] now' = Ok payload' →
            payload' !! "sub" = Some (JStr name) →
            let w' := with_clock now' (cache_filled name u w) in
            get_current_user t' w' =
            (Ok u, with_log (log w' ++ [RedisGet name]) w'))
     ∧ (select_where (has_username name) 0 (db w) = [] →
        get_current_user t w =
        (Raise credentials_exception,
         with_log (log w ++ [RedisGet name; DbExecute ByUsername name]) w))).
Proof.
  intros Hdec Hsub. split; [|intros Hmiss; split].
  - intros u Hpeek.
    by rewrite (get_current_user_cached w t payload name Hdec Hsub _ Hpeek).
  - intros i u Hsel.
    rewrite (get_current_user_miss w t payload name Hdec Hsub Hmiss), Hsel.
    split; [done|]. intros t' payload' now' Hle Hdec' Hsub' w'.
    rewrite (get_current_user_cached w' t' payload' name Hdec' Hsub'
               (Pickled u)); [done|].
    by apply peek_cache_filled.
  - intros Hsel.
    by rewrite (get_current_user_miss w t payload name Hdec Hsub Hmiss),
      Hsel.
Qed.

Lemma get_current_user_cache_witness :
  get_current_user (access_at 5000000) world1 =
    (Ok agent007_logged_in, cache_filled "agent007" agent007_logged_in world1)
  ∧ (let w' := with_clock 3605000000
                 (cache_filled "agent007" agent007_logged_in world1) in
     get_current_user (access_at 5000000) w' =
     (Ok agent007_logged_in, with_log (log w' ++ [RedisGet "agent007"]) w'))
  ∧ get_current_user (access_at 5000000) (with_db [] world1) =
    (Raise credentials_exception,
     with_log (log world1 ++ [RedisGet "agent007";
                              DbExecute ByUsername "agent007"])
       (with_db [] world1)).
Proof.
  assert (Hdec : ∀ w, settings w = settings world1 → clock w = clock world1 →
    Jose.decode (access_at 5000000) (JWT_SECRET (settings w))
      [JWT_ALGORITHM (settings w)] (clock w) =
    Ok (kind_claims "access" "agent007" 5 3605)).
  { intros w -> ->. reflexivity. }
  destruct (get_current_user_cache world1 (access_at 5000000)
              (kind_claims "access" "agent007" 5 3605) "agent007"
              (Hdec world1 eq_refl eq_refl) eq_refl) as [_ Hmiss].
  destruct (Hmiss eq_refl) as [Hfound _].
  destruct (Hfound 0%nat agent007_logged_in eq_refl) as [Hfirst Hagain].
  destruct (get_current_user_cache (with_db [] world1) (access_at 5000000)
              (kind_claims "access" "agent007" 5 3605) "agent007"
              (Hdec _ eq_refl eq_refl) eq_refl) as [_ Hmiss'].
  destruct (Hmiss' eq_refl) as [_ Habsent].
  split; [exact Hfirst|split].
  - apply (Hagain (access_at 5000000)
             (kind_claims "access" "agent007" 5 3605) 3605000000).
    + vm_compute. discriminate.
    + reflexivity.
    + reflexivity.
  - exact (Habsent eq_refl).
Defined.

(** The user table holds the account and the cache holds an entry for it
    that does not unpickle: the call reads the cache, never the table, and
    returns no identity. *)
Lemma garbled_entry_skips_store :
  let r := get_current_user (access_at 5000000) world_garbled in
  (∀ u, Redis.peek "agent007" world_garbled ≠ Some (Pickled u))
  ∧ select_where (has_username "agent007") 0 (db world_garbled) =
    [(0%nat, agent007_logged_in)]
  ∧ store_lookups (log r.2) = store_lookups (log world_garbled)
  ∧ r.1 = Raise JSONDecodeError.
Proof.
  split; [|split; [|split]]; try (reflexivity).
  intros u. vm_compute. discriminate.
Qed.

(** ** Random draws *)

Section random.

Lemma same_but_entropy_refl w : same_but_entropy w w.
Proof. by destruct w. Qed.

Lemma same_but_entropy_trans w1 w2 w3 :
  same_but_entropy w1 w2 → same_but_entropy w2 w3 → same_but_entropy w1 w3.
Proof. unfold same_but_entropy. intros -> ->. by destruct w1. Qed.

Lemma same_but_entropy_with w e : same_but_entropy w (with_entropy e w).
Proof. by destruct w. Qed.

Lemma randbelow_Ok (n : nat) (w : World) :
  (0 < n)%nat →
  ∃ i w', Random.randbelow n w = (Ok i, w') ∧ (i < n)%nat
          ∧ same_but_entropy w w'.
Proof.
  intros Hn. unfold Random.randbelow.
  destruct (entropy w) as [|r rest] eqn:He.
  - exists 0%nat, w. eauto using same_but_entropy_refl.
  - exists (r mod n)%nat, (with_entropy rest w).
    split; [done|]. split; [apply Nat.mod_upper_bound; lia|].
    apply same_but_entropy_with.
Qed.

Context {A : Type}.

Lemma choice_Ok (seq : list A) (w : World) :
  seq ≠ [] →
  ∃ x w', Random.choice seq w = (Ok x, w') ∧ x ∈ seq
          ∧ same_but_entropy w w'.
Proof.
  intros Hne.
  destruct (randbelow_Ok (List.length seq) w) as (i & w' & Hr & Hi & Hw).
  { destruct seq; [done|simpl; lia]. }
  destruct (lookup_lt_is_Some_2 seq i Hi) as [x Hx].
  exists x, w'. unfold Random.choice. run. rewrite Hr, Hx.
  eauto using list_elem_of_lookup_2.
Qed.

Lemma choices_Ok (population : list A) (k : nat) (w : World) :
  population ≠ [] →
  ∃ xs w', Random.choices population k w = (Ok xs, w')
           ∧ List.length xs = k ∧ same_but_entropy w w'.
Proof.
  intros Hne. revert w. induction k as [|k IH]; intros w; simpl.
  - exists [], w. eauto using same_but_entropy_refl.
  - destruct (choice_Ok population w Hne) as (x & w1 & Hx & _ & Hw1).
    destruct (IH w1) as (xs & w2 & Hxs & Hlen & Hw2).
    exists (x :: xs), w2. run. rewrite Hx, Hxs. simpl.
    eauto using same_but_entropy_trans.
Qed.

Lemma swap_Permutation (i j : nat) (x : list A) : Random.swap i j x ≡ₚ x.
Proof.
  unfold Random.swap.
  destruct (x !! i) as [a|] eqn:Hi; [|done].
  destruct (x !! j) as [b|] eqn:Hj; [|done].
  by apply Permutation_insert_swap.
Qed.

Lemma shuffle_from_Ok (i : nat) (x : list A) (w : World) :
  ∃ y w', Random.shuffle_from i x w = (Ok y, w') ∧ y ≡ₚ x
          ∧ same_but_entropy w w'.
Proof.
  revert x w. induction i as [|i IH]; intros x w; simpl.
  - exists x, w. eauto using same_but_entropy_refl.
  - destruct (randbelow_Ok (S (S i)) w) as (j & w1 & Hj & _ & Hw1);
      [lia|].
    destruct (IH (Random.swap (S i) j x) w1) as (y & w2 & Hy & Hp & Hw2).
    exists y, w2. run. rewrite Hj, Hy.
    split; [done|]. split; [|eauto using same_but_entropy_trans].
    by rewrite Hp, swap_Permutation.
Qed.

Lemma shuffle_Ok (x : list A) (w : World) :
  ∃ y w', Random.shuffle x w = (Ok y, w') ∧ y ≡ₚ x ∧ same_but_entropy w w'.
Proof. apply shuffle_from_Ok. Qed.

End random.

(** ** Temporary passwords *)

Lemma length_string_of_list_ascii (l : list ascii) :
  String.length (string_of_list_ascii l) = List.length l.
Proof. induction l; simpl; congruence. Qed.

Lemma has_char_of_intro (alphabet l : list ascii) (c : ascii) :
  c ∈ l → c ∈ alphabet → has_char_of alphabet (string_of_list_ascii l).
Proof.
  intros Hl Ha. exists c. unfold chars.
  by rewrite list_ascii_of_string_of_list_ascii.
Qed.

Lemma generate_temp_password_Ok (w : World) :
  pytest w = false →
  ∃ lower upper digit symbol other pw w',
    generate_temp_password w = (Ok (string_of_list_ascii pw), w')
    ∧ lower ∈ ascii_lowercase ∧ upper ∈ ascii_uppercase
    ∧ digit ∈ digits ∧ symbol ∈ symbols
    ∧ List.length other = 6%nat
    ∧ pw ≡ₚ [lower; upper; digit; symbol] ++ other
    ∧ same_but_entropy w w'.
Proof.
  intros Hpy. unfold generate_temp_password. rewrite Hpy.
  destruct (choice_Ok ascii_lowercase w) as (lower & w1 & H1 & Hl & Hw1);
    [done|].
  destruct (choice_Ok ascii_uppercase w1) as (upper & w2 & H2 & Hu & Hw2);
    [done|].
  destruct (choice_Ok digits w2) as (digit & w3 & H3 & Hd & Hw3); [done|].
  destruct (choice_Ok symbols w3) as (symbol & w4 & H4 & Hs & Hw4); [done|].
  destruct (choices_Ok (ascii_letters ++ digits ++ symbols) 6 w4)
    as (other & w5 & H5 & Hlen & Hw5); [done|].
  destruct (shuffle_Ok ([lower; upper; digit; symbol] ++ other) w5)
    as (pw & w6 & H6 & Hperm & Hw6).
  exists lower, upper, digit, symbol, other, pw, w6.
  run. rewrite H1, H2, H3, H4. simpl in H5. rewrite H5.
  simpl in H6. rewrite H6.
  repeat split; try done.
  eauto 10 using same_but_entropy_trans.
Qed.

(** C10: outside pytest the generator returns a password of length 10 that
    has a lowercase letter, an uppercase letter, a digit and one of
    [@$!%*?&], whatever the random draws; under pytest it returns
    ["TestTest2!"]. *)
Theorem generate_temp_password_shape (w : World) :
  (pytest w = false →
   ∃ pw w', generate_temp_password w = (Ok pw, w')
     ∧ String.length pw = 10%nat
     ∧ has_char_of ascii_lowercase pw ∧ has_char_of ascii_uppercase pw
     ∧ has_char_of digits pw ∧ has_char_of symbols pw)
  ∧ (pytest w = true → generate_temp_password w = (Ok "TestTest2!", w)).
Proof.
  split.
  - intros (lower & upper & digit & symbol & other & pw & w' & Hrun & Hl & Hu
            & Hd & Hs & Hlen & Hperm & _)%generate_temp_password_Ok.
    exists (string_of_list_ascii pw), w'. split; [done|].
    assert (Hin : ∀ c, c ∈ [lower; upper; digit; symbol] → c ∈ pw).
    { intros c Hc. rewrite Hperm. apply elem_of_app. by left. }
    split; [|repeat split].
    + by rewrite length_string_of_list_ascii, (Permutation_length Hperm),
        length_app, Hlen.
    + apply (has_char_of_intro _ _ lower); [apply Hin; left|exact Hl].
    + apply (has_char_of_intro _ _ upper); [apply Hin; right; left|exact Hu].
    + apply (has_char_of_intro _ _ digit);
        [apply Hin; do 2 right; left|exact Hd].
    + apply (has_char_of_intro _ _ symbol);
        [apply Hin; do 3 right; left|exact Hs].
  - intros Hpy. unfold generate_temp_password. by rewrite Hpy.
Qed.

Lemma generate_temp_password_shape_witness :
  (∃ pw w', generate_temp_password world0 = (Ok pw, w')
     ∧ String.length pw = 10%nat
     ∧ has_char_of ascii_lowercase pw ∧ has_char_of ascii_uppercase pw
     ∧ has_char_of digits pw ∧ has_char_of symbols pw)
  ∧ generate_temp_password
      (mkWorld (default_settings "s3cr3t") true 0 [] [] ∅ [] []) =
    (Ok "TestTest2!",
     mkWorld (default_settings "s3cr3t") true 0 [] [] ∅ [] []).
Proof.
  split.
  - apply (generate_temp_password_shape world0). reflexivity.
  - apply (generate_temp_password_shape
             (mkWorld (default_settings "s3cr3t") true 0 [] [] ∅ [] [])).
    reflexivity.
Defined.

Lemma choices_elem {A} (population : list A) (k : nat) (w : World) :
  population ≠ [] →
  ∃ xs w', Random.choices population k w = (Ok xs, w')
           ∧ List.length xs = k
           ∧ Forall (λ x, x ∈ population) xs ∧ same_but_entropy w w'.
Proof.
  intros Hne. revert w. induction k as [|k IH]; intros w; simpl.
  - exists [], w. eauto using same_but_entropy_refl.
  - destruct (choice_Ok population w Hne) as (x & w1 & Hx & Hin & Hw1).
    destruct (IH w1) as (xs & w2 & Hxs & Hlen & Hall & Hw2).
    exists (x :: xs), w2. run. rewrite Hx, Hxs. simpl.
    split; [done|]. split; [by rewrite Hlen|]. split; [by constructor|].
    by eapply same_but_entropy_trans.
Qed.

(** The characters and the length of a temporary password, under pytest
    as outside it. *)
Lemma generate_temp_password_chars (w : World) :
  ∃ pw w', generate_temp_password w = (Ok pw, w')
    ∧ Forall (λ c, c ∈ password_alphabet) (chars pw)
    ∧ String.length pw = 10%nat
    ∧ same_but_entropy w w'.
Proof.
  destruct (pytest w) eqn:Hpy.
  - exists "TestTest2!", w. unfold generate_temp_password. rewrite Hpy.
    split; [done|]. split; [|split; [done|apply same_but_entropy_refl]].
    unfold chars. simpl. repeat constructor;
      apply list_elem_of_In; vm_compute; tauto.
  - unfold generate_temp_password. rewrite Hpy.
    destruct (choice_Ok ascii_lowercase w) as (lower & w1 & H1 & Hl & Hw1);
      [done|].
    destruct (choice_Ok ascii_uppercase w1) as (upper & w2 & H2 & Hu & Hw2);
      [done|].
    destruct (choice_Ok digits w2) as (digit & w3 & H3 & Hd & Hw3); [done|].
    destruct (choice_Ok symbols w3) as (symbol & w4 & H4 & Hs & Hw4);
      [done|].
    destruct (choices_elem password_alphabet 6 w4)
      as (other & w5 & H5 & Hlen & Hall & Hw5); [done|].
    destruct (shuffle_Ok ([lower; upper; digit; symbol] ++ other) w5)
      as (pw & w6 & H6 & Hperm & Hw6).
    exists (string_of_list_ascii pw), w6.
    run. rewrite H1, H2, H3, H4.
    unfold password_alphabet in H5. simpl in H5. rewrite H5.
    simpl in H6. rewrite H6.
    split; [done|]. split; [|split; [|eauto 10 using same_but_entropy_trans]].
    + unfold chars. rewrite list_ascii_of_string_of_list_ascii, Hperm.
      unfold password_alphabet, ascii_letters in *.
      repeat apply Forall_cons_2; [| | | |exact Hall];
        rewrite !elem_of_app; auto.
    + by rewrite length_string_of_list_ascii, (Permutation_length Hperm),
        length_app, Hlen.
Qed.

(** ** What bcrypt digests *)

Lemma list_ascii_length (s : string) :
  List.length (list_ascii_of_string s) = String.length s.
Proof. induction s; simpl; congruence. Qed.

Lemma str_len_le (s : string) : (Passlib.str_len s ≤ Passlib.bytes_len s)%nat.
Proof.
  unfold Passlib.str_len, Passlib.bytes_len.
  rewrite <- list_ascii_length. apply List.filter_length_le.
Qed.

Lemma digest_input_idemp (s : string) :
  Passlib.digest_input (Passlib.digest_input s) = Passlib.digest_input s.
Proof.
  unfold Passlib.digest_input. generalize 72%nat. intros n. revert s.
  induction n as [|n IH]; intros [|c s]; simpl; try done. by rewrite IH.
Qed.

Lemma bcrypt_accepts_size (s : string) :
  bcrypt_accepts s = true →
  (Passlib.MAX_PASSWORD_SIZE <? Passlib.str_len s)%nat = false
  ∧ (Passlib.MAX_PASSWORD_SIZE <? Passlib.bytes_len s)%nat = false
  ∧ Passlib.has_nul s = false.
Proof.
  unfold bcrypt_accepts. intros [Hlen Hnul%negb_true_iff]%andb_true_iff.
  apply Nat.leb_le in Hlen. pose proof (str_len_le s).
  repeat split; [apply Nat.ltb_ge; lia|apply Nat.ltb_ge; lia|done].
Qed.

Lemma calc_checksum_accepts (s : string) :
  bcrypt_accepts s = true →
  Passlib.calc_checksum s = Ok (Passlib.digest_input s).
Proof.
  intros (_ & Hlen & Hnul)%bcrypt_accepts_size.
  unfold Passlib.calc_checksum. by rewrite Hlen, Hnul.
Qed.

(** A secret that bcrypt does not digest is refused with one of two
    exceptions of passlib. *)
Lemma calc_checksum_refuses (s : string) :
  bcrypt_accepts s = false →
  Passlib.calc_checksum s = Raise PasswordSizeError
  ∨ Passlib.calc_checksum s = Raise PasswordValueError.
Proof.
  unfold bcrypt_accepts, Passlib.calc_checksum. intros Hno.
  destruct (Nat.ltb_spec Passlib.MAX_PASSWORD_SIZE (Passlib.bytes_len s))
    as [Hlt|Hle]; [by left|].
  apply Nat.leb_le in Hle. rewrite Hle in Hno. simpl in Hno.
  apply negb_false_iff in Hno. rewrite Hno. by right.
Qed.

Lemma verify_password_digest (salt : nat) (s : string) :
  bcrypt_accepts s = true →
  Hash.verify_password s (BcryptHash salt (Passlib.digest_input s)) = Ok true.
Proof.
  intros Hok. destruct (bcrypt_accepts_size s Hok) as (Hlen & _ & _).
  unfold Hash.verify_password, Passlib.verify.
  rewrite Hlen, (calc_checksum_accepts s Hok), digest_input_idemp.
  by rewrite bool_decide_eq_true_2.
Qed.

Lemma get_password_hash_verifies (password : string) (w : World) :
  bcrypt_accepts password = true →
  ∃ salt w', Hash.get_password_hash password w =
             (Ok (BcryptHash salt (Passlib.digest_input password)), w')
    ∧ same_but_entropy w w'.
Proof.
  intros Hok. destruct (bcrypt_accepts_size password Hok) as (Hlen & _ & _).
  unfold Hash.get_password_hash, Passlib.hash.
  rewrite Hlen, (calc_checksum_accepts password Hok).
  destruct (entropy w) as [|salt rest].
  - eauto using same_but_entropy_refl.
  - eauto using same_but_entropy_with.
Qed.

Lemma get_password_hash_total (password : string) (w : World) :
  bcrypt_accepts password = true →
  ∃ h w', Hash.get_password_hash password w = (Ok h, w')
          ∧ same_but_entropy w w'.
Proof.
  intros Hok.
  destruct (get_password_hash_verifies password w Hok) as (salt & w' & H).
  eauto.
Qed.

Lemma get_password_hash_refuses (password : string) (w : World) :
  bcrypt_accepts password = false →
  ∃ e w', Hash.get_password_hash password w = (Raise e, w')
    ∧ (e = PasswordSizeError ∨ e = PasswordValueError)
    ∧ same_but_entropy w w'.
Proof.
  intros Hno. unfold Hash.get_password_hash, Passlib.hash.
  destruct (Passlib.MAX_PASSWORD_SIZE <? Passlib.str_len password)%nat.
  { eauto 6 using same_but_entropy_refl. }
  destruct (calc_checksum_refuses password Hno) as [-> | ->];
    destruct (entropy w) as [|salt rest];
    eauto 7 using same_but_entropy_refl, same_but_entropy_with.
Qed.

Lemma get_password_hash_entropy (password : string) (w : World) :
  same_but_entropy w (Hash.get_password_hash password w).2.
Proof.
  unfold Hash.get_password_hash.
  destruct (Passlib.MAX_PASSWORD_SIZE <? Passlib.str_len password)%nat;
    [apply same_but_entropy_refl|].
  destruct (entropy w) as [|salt rest];
    [apply same_but_entropy_refl|apply same_but_entropy_with].
Qed.

Lemma alphabet_accepts (pw : string) :
  Forall (λ c, c ∈ password_alphabet) (chars pw) →
  (String.length pw ≤ Passlib.MAX_PASSWORD_SIZE)%nat →
  bcrypt_accepts pw = true.
Proof.
  intros Hall Hlen. unfold bcrypt_accepts, Passlib.bytes_len, Passlib.has_nul.
  apply andb_true_intro. split; [by apply Nat.leb_le|].
  apply negb_true_iff, bool_decide_eq_false. intros Hin.
  rewrite Forall_forall in Hall. specialize (Hall _ Hin). revert Hall.
  by apply (bool_decide_eq_false_1 (Ascii.zero ∈ password_alphabet)).
Qed.

Lemma generate_temp_password_total (w : World) :
  ∃ pw w', generate_temp_password w = (Ok pw, w') ∧ same_but_entropy w w'
    ∧ bcrypt_accepts pw = true.
Proof.
  destruct (generate_temp_password_chars w)
    as (pw & w' & Hrun & Hall & Hlen & Hw).
  exists pw, w'. split; [done|]. split; [done|].
  apply alphabet_accepts; [done|]. rewrite Hlen.
  apply Nat.leb_le. reflexivity.
Qed.

Lemma generate_temp_password_entropy (w : World) :
  same_but_entropy w (generate_temp_password w).2.
Proof.
  destruct (generate_temp_password_total w) as (pw & w' & -> & Hw & _).
  exact Hw.
Qed.

Lemma same_but_entropy_db (w w' : World) :
  same_but_entropy w w' → db w' = db w.
Proof. by intros ->. Qed.

(** ** Password verification *)




(** ** Email-verification tokens *)

Lemma convert_time_claim_ne (k k' : string) (c : claims) :
  k ≠ k' → Jose.convert_time_claim k c !! k' = c !! k'.
Proof.
  intros Hne. unfold Jose.convert_time_claim.
  destruct (c !! k) as [[]|]; try done. by rewrite lookup_insert_ne.
Qed.

Lemma convert_time_claim_datetime (k : string) (c : claims) (d : Z) :
  c !! k = Some (JDatetime d) →
  Jose.convert_time_claim k c !! k = Some (JInt (timegm d)).
Proof.
  intros Hk. unfold Jose.convert_time_claim. rewrite Hk.
  by rewrite lookup_insert_eq.
Qed.

Lemma create_email_token_claims (cfg : Settings) (data : claims)
    (now_expire now_iat : Z) :
  ∃ c, create_email_token cfg data now_expire now_iat =
       Jws c (JWT_SECRET cfg) (JWT_ALGORITHM cfg)
    ∧ c !! "exp" = Some (JInt (timegm now_expire + 7 * 86400))
    ∧ c !! "iat" = Some (JInt (timegm now_iat))
    ∧ c !! "token_type" = data !! "token_type"
    ∧ c !! "sub" = data !! "sub".
Proof.
  eexists. split; [reflexivity|].
  rewrite <- timegm_add_days.
  repeat split.
  - rewrite !convert_time_claim_ne by done.
    apply convert_time_claim_datetime. by rewrite lookup_insert_eq.
  - rewrite convert_time_claim_ne by done.
    apply convert_time_claim_datetime.
    rewrite convert_time_claim_ne by done.
    rewrite lookup_insert_ne by done. by rewrite lookup_insert_eq.
  - rewrite !convert_time_claim_ne by done.
    by rewrite !lookup_insert_ne by done.
  - rewrite !convert_time_claim_ne by done.
    by rewrite !lookup_insert_ne by done.
Qed.

(** C7: the token of a verification mail expires seven days (604800
    seconds) after the clock reading taken when it is made, is stamped with
    the second reading as [iat], names the address as [sub], and has no
    [token_type] claim; [create_email_token] itself adds none to the data it
    is given. *)
Theorem email_token_expiry_and_kind (cfg : Settings) (data : claims)
    (email : string) (now_expire now_iat : Z) :
  (∃ c, create_email_token cfg data now_expire now_iat =
        Jws c (JWT_SECRET cfg) (JWT_ALGORITHM cfg)
     ∧ c !! "exp" = Some (JInt (timegm now_expire + 604800))
     ∧ c !! "token_type" = data !! "token_type")
  ∧ (∃ c, verification_token cfg email now_expire now_iat =
          Jws c (JWT_SECRET cfg) (JWT_ALGORITHM cfg)
     ∧ c !! "exp" = Some (JInt (timegm now_expire + 604800))
     ∧ c !! "iat" = Some (JInt (timegm now_iat))
     ∧ c !! "sub" = Some (JStr email)
     ∧ c !! "token_type" = None).
Proof.
  split.
  - destruct (create_email_token_claims cfg data now_expire now_iat)
      as (c & Hc & Hexp & _ & Hkind & _). eauto.
  - destruct (create_email_token_claims cfg {["sub" := JStr email]}
                now_expire now_iat) as (c & Hc & Hexp & Hiat & Hkind & Hsub).
    exists c. repeat split; try done.
Qed.

(** The token mailed to the test account has no token-kind claim, so not
    the claim [email-verify]. *)
Lemma email_token_has_no_kind :
  ¬ ∃ c k a,
      verification_token (default_settings "s3cr3t") "agent007@gmail.com"
        5000000 5000000 = Jws c k a
      ∧ c !! "token_type" = Some (JStr "email-verify").
Proof. intros (c & k & a & [= <- _ _] & Hkind). discriminate. Qed.

(** ** Password reset and verification request *)

Section by_email.

Variables (w : World) (e : string).

Lemma forget_password_unregistered :
  select_where (has_email e) 0 (db w) = [] →
  (forget_password e w).1 = Ok (Message forget_password_message).
Proof.
  intros Hsel. unfold forget_password, UserService.get_user_by_email,
    UserRepository.get_user_by_email. run. by rewrite Hsel.
Qed.

Lemma forget_password_registered (i : nat) (u : User) :
  select_where (has_email e) 0 (db w) = [(i, u)] →
  (forget_password e w).1 =
  if confirmed u then Ok (Message forget_password_message)
  else Raise (HTTPException 401 "Email is not confirmed" []).
Proof.
  intros Hsel. unfold forget_password, UserService.get_user_by_email,
    UserRepository.get_user_by_email. run. rewrite Hsel. simpl.
  destruct (confirmed u); simpl; [|done].
  set (w0 := with_log (log w ++ [DbExecute ByEmail e]) w).
  destruct (generate_temp_password_total w0) as (pw & w1 & -> & Hw1 & Hok).
  destruct (get_password_hash_total pw w1 Hok) as (h & w2 & -> & Hw2).
  unfold UserService.update_hashed_password,
    UserRepository.update_hashed_password,
    UserRepository.get_user_by_email, assign, add_task. run.
  rewrite (same_but_entropy_db _ _ Hw2), (same_but_entropy_db _ _ Hw1).
  simpl. by rewrite Hsel.
Qed.

Lemma request_email_unregistered (base_url : string) :
  select_where (has_email e) 0 (db w) = [] →
  (request_email e base_url w).1 = Ok (Message request_email_message).
Proof.
  intros Hsel. unfold request_email, UserService.get_user_by_email,
    UserRepository.get_user_by_email. run. by rewrite Hsel.
Qed.

Lemma request_email_registered (base_url : string) (i : nat) (u : User) :
  select_where (has_email e) 0 (db w) = [(i, u)] →
  (request_email e base_url w).1 =
  if confirmed u then
    Raise (HTTPException 400 "Email is already confirmed" [])
  else Ok (Message request_email_message).
Proof.
  intros Hsel. unfold request_email, UserService.get_user_by_email,
    UserRepository.get_user_by_email, add_task. run. rewrite Hsel. simpl.
  by destruct (confirmed u).
Qed.

End by_email.

(** C4: the password-reset route answers an unregistered address and the
    address of a confirmed account with the same message, and the address
    of an unconfirmed account with 401 "Email is not confirmed"; the
    verification-request route answers an unregistered address and the
    address of an unconfirmed account with the same message, and the
    address of a confirmed account with 400 "Email is already
    confirmed". *)
Theorem reset_and_verification_responses (w : World) (e base_url : string) :
  (select_where (has_email e) 0 (db w) = [] →
   (forget_password e w).1 = Ok (Message forget_password_message)
   ∧ (request_email e base_url w).1 = Ok (Message request_email_message))
  ∧ (∀ i u, select_where (has_email e) 0 (db w) = [(i, u)] →
     (forget_password e w).1 =
       (if confirmed u then Ok (Message forget_password_message)
        else Raise (HTTPException 401 "Email is not confirmed" []))
     ∧ (request_email e base_url w).1 =
       (if confirmed u then
          Raise (HTTPException 400 "Email is already confirmed" [])
        else Ok (Message request_email_message))).
Proof.
  split.
  - intros Hsel. split.
    + by apply forget_password_unregistered.
    + by apply request_email_unregistered.
  - intros i u Hsel. split.
    + by apply (forget_password_registered w e i u).
    + by apply (request_email_registered w e base_url i u).
Qed.

Lemma reset_and_verification_responses_witness :
  ((forget_password "nobody@gmail.com" world0).1 =
     Ok (Message forget_password_message)
   ∧ (request_email "nobody@gmail.com" "http://testserver/" world0).1 =
     Ok (Message request_email_message))
  ∧ ((forget_password "agent007@gmail.com" world0).1 =
       Ok (Message forget_password_message)
     ∧ (request_email "agent007@gmail.com" "http://testserver/" world0).1 =
       Raise (HTTPException 400 "Email is already confirmed" [])).
Proof.
  split.
  - apply (proj1 (reset_and_verification_responses world0
                    "nobody@gmail.com" "http://testserver/")). reflexivity.
  - apply (proj2 (reset_and_verification_responses world0
                    "agent007@gmail.com" "http://testserver/")
             0%nat agent007). reflexivity.
Defined.

(** The two routes tell a registered address from an unregistered one: the
    reset route when the account is unconfirmed, the verification route
    when it is confirmed. *)
Lemma registered_address_shows :
  (forget_password "agent007@gmail.com"
     (with_db [agent007_unconfirmed] world0)).1 ≠
  (forget_password "agent007@gmail.com" (with_db [] world0)).1
  ∧ (request_email "agent007@gmail.com" "http://testserver/" world0).1 ≠
    (request_email "agent007@gmail.com" "http://testserver/"
       (with_db [] world0)).1.
Proof. split; discriminate. Qed.


(** * Further properties *)

(** ** Tokens that do not decode, or name no subject *)

Section bad_token.

Variables (w : World) (t : token).

Let decoded : res claims :=
  Jose.decode t (JWT_SECRET (settings w)) [JWT_ALGORITHM (settings w)]
    (clock w).

Lemma get_current_user_undecodable (e : exn) :
  decoded = Raise e →
  get_current_user t w = (Raise (caught credentials_exception e), w).
Proof.
  unfold decoded. intros Hdec.
  unfold get_current_user. run. rewrite Hdec. by destruct e.
Qed.

Lemma get_email_from_token_undecodable (e : exn) :
  decoded = Raise e →
  get_email_from_token t w =
  (Raise (caught (HTTPException 422 "Invalid token for email verification" [])
            e), w).
Proof.
  unfold decoded. intros Hdec.
  unfold get_email_from_token. run. rewrite Hdec. by destruct e.
Qed.

Lemma get_email_from_token_decoded (payload : claims) (s : string) :
  decoded = Ok payload →
  payload !! "sub" = Some (JStr s) →
  get_email_from_token t w = (Ok s, w).
Proof.
  unfold decoded. intros Hdec Hsub.
  unfold get_email_from_token, claim_string. run.
  by rewrite Hdec; simpl; rewrite Hsub.
Qed.

(** What the four entry points do with a token that [jwt.decode]
    refuses. *)
Lemma undecodable_token (e : exn) :
  decoded = Raise e →
  get_current_user t w = (Raise (caught credentials_exception e), w)
  ∧ verify_refresh_token t w = (Raise (caught credentials_exception e), w)
  ∧ new_token t w = (Raise (caught credentials_exception e), w)
  ∧ confirm_email t w =
    (Raise (caught (HTTPException 422 "Invalid token for email verification"
                      []) e), w).
Proof.
  intros Hdec. repeat split.
  - by apply get_current_user_undecodable.
  - by apply verify_refresh_token_undecodable.
  - unfold new_token. unfold mbind at 1, M_bind at 1.
    by rewrite (verify_refresh_token_undecodable w t e).
  - unfold confirm_email. unfold mbind at 1, M_bind at 1.
    by rewrite (get_email_from_token_undecodable e).
Qed.

(** X1: A token that [jwt.decode] refuses with a [JWTError] is answered with
    the credentials exception (401) by [get_current_user],
    [verify_refresh_token] and the refresh route, and with 422 by the
    confirmation route.  An exception of [jwt.decode] that is no
    [JWTError], such as the [TypeError] for an [exp] claim that is [null],
    is not caught: it comes out of all four as it is.  In either case
    neither the cache nor the user table is read and nothing changes. *)
Theorem undecodable_token_rejected (e : exn) :
  decoded = Raise e →
  (∀ j, e = JWTError j →
     get_current_user t w = (Raise credentials_exception, w)
     ∧ verify_refresh_token t w = (Raise credentials_exception, w)
     ∧ new_token t w = (Raise credentials_exception, w)
     ∧ confirm_email t w =
       (Raise (HTTPException 422 "Invalid token for email verification" []),
        w))
  ∧ ((∀ j, e ≠ JWTError j) →
     get_current_user t w = (Raise e, w)
     ∧ verify_refresh_token t w = (Raise e, w)
     ∧ new_token t w = (Raise e, w)
     ∧ confirm_email t w = (Raise e, w)).
Proof.
  intros Hdec. pose proof (undecodable_token e Hdec) as H. split.
  - by intros j ->.
  - intros Hno. by destruct e; try done; destruct (Hno e).
Qed.

(** X2: A token that decodes but has no [sub] claim makes the subscript
    [payload["sub"]] raise [KeyError], which none of the handlers catches:
    the calls end in that error, not in 401 or 422, before any cache or
    table access. *)
Theorem token_without_subject (payload : claims) :
  decoded = Ok payload →
  payload !! "sub" = None →
  get_current_user t w = (Raise (KeyError "sub"), w)
  ∧ verify_refresh_token t w = (Raise (KeyError "sub"), w)
  ∧ get_email_from_token t w = (Raise (KeyError "sub"), w).
Proof.
  unfold decoded. intros Hdec Hsub. repeat split.
  - unfold get_current_user. run. by rewrite Hdec; simpl; rewrite Hsub.
  - unfold verify_refresh_token. run. by rewrite Hdec; simpl; rewrite Hsub.
  - unfold get_email_from_token. run. by rewrite Hdec; simpl; rewrite Hsub.
Qed.

End bad_token.

Lemma undecodable_token_rejected_witness :
  (get_current_user (Opaque "refresh_token") world0 =
     (Raise credentials_exception, world0)
   ∧ verify_refresh_token (Opaque "refresh_token") world0 =
     (Raise credentials_exception, world0)
   ∧ new_token (Opaque "refresh_token") world0 =
     (Raise credentials_exception, world0)
   ∧ confirm_email (Opaque "refresh_token") world0 =
     (Raise (HTTPException 422 "Invalid token for email verification" []),
      world0))
  ∧ (get_current_user token_null_exp world0 = (Raise TypeError, world0)
     ∧ verify_refresh_token token_null_exp world0 = (Raise TypeError, world0)
     ∧ new_token token_null_exp world0 = (Raise TypeError, world0)
     ∧ confirm_email token_null_exp world0 = (Raise TypeError, world0)).
Proof.
  split.
  - apply (proj1 (undecodable_token_rejected world0 (Opaque "refresh_token")
                    (JWTError InvalidCompactJWS) eq_refl)
             InvalidCompactJWS).
    reflexivity.
  - apply (proj2 (undecodable_token_rejected world0 token_null_exp
                    TypeError eq_refl)).
    discriminate.
Defined.

Lemma token_without_subject_witness :
  let t := create_access_token (default_settings "s3cr3t") ∅ None 5000000 in
  get_current_user t world0 = (Raise (KeyError "sub"), world0)
  ∧ verify_refresh_token t world0 = (Raise (KeyError "sub"), world0)
  ∧ get_email_from_token t world0 = (Raise (KeyError "sub"), world0).
Proof.
  apply (token_without_subject world0
           (create_access_token (default_settings "s3cr3t") ∅ None 5000000)
           (<["token_type" := JStr "access"]>
              (<["iat" := JInt 5]> (<["exp" := JInt 3605]> ∅)))).
  - reflexivity.
  - reflexivity.
Defined.

(** ** Token kinds *)

(** X3: [verify_refresh_token] and the refresh route refuse every token made by
    [create_access_token], whoever it names and whatever the settings, the
    clock and the lifetime: with the credentials exception and without
    reading the user table. *)
Theorem access_token_is_no_refresh_token (w : World) (cfg : Settings)
    (sub : string) (expires_delta : option Z) (now : Z) :
  let t := create_access_token cfg {["sub" := JStr sub]} expires_delta now in
  verify_refresh_token t w = (Raise credentials_exception, w)
  ∧ new_token t w = (Raise credentials_exception, w).
Proof.
  intros t.
  assert (Hv : verify_refresh_token t w = (Raise credentials_exception, w)).
  { destruct (Jose.decode t (JWT_SECRET (settings w))
                [JWT_ALGORITHM (settings w)] (clock w)) as [payload|e]
      eqn:Hdec.
    - assert (Hp : payload = kind_claims "access" sub (timegm now)
          (timegm now + access_ttl cfg expires_delta)).
      { unfold t in Hdec. rewrite create_access_token_claims in Hdec.
        by apply decode_Jws_Ok in Hdec. }
      rewrite (verify_refresh_token_decoded w t payload sub Hdec)
        by (by rewrite Hp).
      rewrite bool_decide_eq_true_2; [done|]. by rewrite Hp.
    - rewrite (verify_refresh_token_undecodable w t e Hdec).
      unfold t in Hdec. rewrite create_access_token_claims in Hdec.
      by destruct (decode_kind_claims_raises _ _ _ _ _ _ _ _ _ _ Hdec)
        as [j ->]. }
  split; [done|].
  unfold new_token. unfold mbind at 1, M_bind at 1. by rewrite Hv.
Qed.

Lemma decode_kind_claims (cfg : Settings) (kind sub : string)
    (iat exp now : Z) :
  Jose.decode (Jws (kind_claims kind sub iat exp) (JWT_SECRET cfg)
                 (JWT_ALGORITHM cfg))
    (JWT_SECRET cfg) [JWT_ALGORITHM cfg] now =
  if exp <? timegm now then Raise (JWTError ExpiredSignatureError)
  else Ok (kind_claims kind sub iat exp).
Proof. by rewrite decode_own_key, validate_kind_claims. Qed.

(** X4: [get_current_user] does not look at [token_type]: a refresh token that
    has not expired resolves its subject exactly as an access token does,
    here on a cache miss, with the user returned and cached. *)
Theorem refresh_token_resolves_user (w : World) (name : string)
    (expires_delta : option Z) (now : Z) (i : nat) (u : User) :
  timegm (clock w) ≤ timegm now + refresh_ttl (settings w) expires_delta →
  Redis.peek name w = None →
  select_where (has_username name) 0 (db w) = [(i, u)] →
  get_current_user
    (create_refresh_token (settings w) {["sub" := JStr name]} expires_delta
       now) w =
  (Ok u, cache_filled name u w).
Proof.
  intros Hle Hpeek Hsel.
  rewrite (get_current_user_miss w _
             (kind_claims "refresh" name (timegm now)
                (timegm now + refresh_ttl (settings w) expires_delta))
             name); [by rewrite Hsel| |done|done].
  rewrite create_refresh_token_claims, decode_kind_claims.
  destruct (Z.ltb_spec (timegm now + refresh_ttl (settings w) expires_delta)
              (timegm (clock w))); [lia|done].
Qed.

Lemma refresh_token_resolves_user_witness :
  get_current_user (refresh_at 5000000) world1 =
  (Ok agent007_logged_in, cache_filled "agent007" agent007_logged_in world1).
Proof.
  apply (refresh_token_resolves_user world1 "agent007" None 5000000 0%nat
           agent007_logged_in).
  - discriminate.
  - reflexivity.
  - reflexivity.
Defined.

(** ** Login *)

Section login.

Variables (w : World) (name pw : string).

Let looked_up : World := with_log (log w ++ [DbExecute ByUsername name]) w.

Let invalid : exn :=
  HTTPException 401 "Invalid username or password"
    [("WWW-Authenticate", "Bearer")].

Lemma login_user_unconfirmed (i : nat) (u : User) :
  select_where (has_username name) 0 (db w) = [(i, u)] →
  Hash.verify_password pw (hashed_password u) = Ok true →
  confirmed u = false →
  login_user name pw w =
  (Raise (HTTPException 401 "Email is not confirmed" []), looked_up).
Proof.
  unfold login_user, UserService.get_user_by_username,
    UserRepository.get_user_by_username. run.
  intros -> Hv Hc. simpl. by rewrite Hv, Hc.
Qed.

(** X5: A login that fails changes nothing but the log of the one table read.
    An unknown user name and a wrong password for a known one get the same
    401 "Invalid username or password"; the right password of an
    unconfirmed account gets 401 "Email is not confirmed". *)
Theorem login_user_failures :
  (select_where (has_username name) 0 (db w) = [] →
   login_user name pw w = (Raise invalid, looked_up))
  ∧ (∀ i u, select_where (has_username name) 0 (db w) = [(i, u)] →
     Hash.verify_password pw (hashed_password u) = Ok false →
     login_user name pw w = (Raise invalid, looked_up))
  ∧ (∀ i u, select_where (has_username name) 0 (db w) = [(i, u)] →
     Hash.verify_password pw (hashed_password u) = Ok true →
     confirmed u = false →
     login_user name pw w =
     (Raise (HTTPException 401 "Email is not confirmed" []), looked_up)).
Proof.
  unfold login_user, UserService.get_user_by_username,
    UserRepository.get_user_by_username. run.
  split; [|split].
  - by intros ->.
  - intros i u -> Hv. simpl. by rewrite Hv.
  - intros i u Hsel Hv Hc. by rewrite <- (login_user_unconfirmed i u).
Qed.

(** What a login that passes the checks does. *)
Lemma login_user_passes (i : nat) (u : User) :
  select_where (has_username name) 0 (db w) = [(i, u)] →
  select_where (has_email (email u)) 0 (db w) = [(i, u)] →
  Hash.verify_password pw (hashed_password u) = Ok true →
  confirmed u = true →
  let rt :=
    create_refresh_token (settings w) {["sub" := JStr name]} None (clock w) in
  ∃ w', login_user name pw w =
        (Ok (TokenModel
               (create_access_token (settings w) {["sub" := JStr name]} None
                  (clock w)) rt "bearer"), w')
    ∧ db w' = <[i := set_refresh_token (Some rt) u]> (db w)
    ∧ settings w' = settings w ∧ redis w' = redis w ∧ clock w' = clock w.
Proof.
  intros Hsel Hem Hv Hc rt.
  assert (Hin : (i, u) ∈ select_where (has_username name) 0 (db w))
    by (rewrite Hsel; apply list_elem_of_singleton, eq_refl).
  destruct (select_by_username _ _ _ _ Hin) as [_ Hname].
  eexists. unfold login_user, UserService.get_user_by_username,
    UserRepository.get_user_by_username. run.
  rewrite Hsel. simpl. rewrite Hv, Hc. simpl.
  unfold UserService.update_refresh_token,
    UserRepository.update_refresh_token, UserRepository.get_user_by_email,
    assign. run. rewrite Hem. simpl. rewrite Hname.
  repeat split.
Qed.

End login.

(** X6: A login that succeeds writes the refresh token it returns into the row
    of the user it names and touches no other row; the table keeps its
    length. *)
Theorem login_user_writes_one_row (w w' : World) (name pw : string)
    (a t : token) (b : string) :
  login_user name pw w = (Ok (TokenModel a t b), w') →
  ∃ i u, db w !! i = Some u ∧ username u = name
    ∧ db w' !! i = Some (set_refresh_token (Some t) u)
    ∧ (∀ j, j ≠ i → db w' !! j = db w !! j)
    ∧ List.length (db w') = List.length (db w).
Proof.
  intros (i & u & Hsel & _ & _ & [= _ Ht _] & Hdb & _)%login_user_Ok.
  assert (Hin : (i, u) ∈ select_where (has_username name) 0 (db w))
    by (rewrite Hsel; apply list_elem_of_singleton, eq_refl).
  destruct (select_by_username _ _ _ _ Hin) as [Hi Hname].
  exists i, u. rewrite Hdb, Ht. repeat split; try done.
  - apply list_lookup_insert_eq. by eapply lookup_lt_Some.
  - intros j Hj. by apply list_lookup_insert_ne.
  - apply length_insert.
Qed.

Lemma login_user_writes_one_row_witness :
  ∃ i u, db world0 !! i = Some u ∧ username u = "agent007"
    ∧ db world1 !! i = Some (set_refresh_token (Some (refresh_at 5000000)) u)
    ∧ (∀ j, j ≠ i → db world1 !! j = db world0 !! j)
    ∧ List.length (db world1) = List.length (db world0).
Proof.
  apply (login_user_writes_one_row world0 world1 "agent007" "Testtest1!"
           (access_at 5000000) (refresh_at 5000000) "bearer").
  reflexivity.
Defined.

Lemma login_user_failures_witness :
  login_user "username" "Testtest1!" world0 =
    (Raise (HTTPException 401 "Invalid username or password"
              [("WWW-Authenticate", "Bearer")]),
     with_log (log world0 ++ [DbExecute ByUsername "username"]) world0)
  ∧ login_user "agent007" "password" world0 =
    (Raise (HTTPException 401 "Invalid username or password"
              [("WWW-Authenticate", "Bearer")]),
     with_log (log world0 ++ [DbExecute ByUsername "agent007"]) world0)
  ∧ login_user "agent007" "Testtest1!" world_unconfirmed =
    (Raise (HTTPException 401 "Email is not confirmed" []),
     with_log (log world_unconfirmed ++ [DbExecute ByUsername "agent007"])
       world_unconfirmed).
Proof.
  split; [|split].
  - apply (proj1 (login_user_failures world0 "username" "Testtest1!")).
    reflexivity.
  - apply (proj1 (proj2 (login_user_failures world0 "agent007" "password"))
             0%nat agent007); reflexivity.
  - apply (proj2 (proj2 (login_user_failures world_unconfirmed "agent007"
                           "Testtest1!")) 0%nat agent007_unconfirmed);
      reflexivity.
Defined.



(** X8: After a login, the access token it returned resolves, until it expires,
    to the row of the user with the new refresh token stored, as long as
    the user table is as the login left it and the cache has no live entry
    for the user; the row is then cached for 3600 seconds. *)
Theorem authenticate_after_login (w w1 w3 : World) (name pw : string)
    (a t : token) (b : string) :
  login_user name pw w = (Ok (TokenModel a t b), w1) →
  db w3 = db w1 →
  settings w3 = settings w →
  Redis.peek name w3 = None →
  timegm (clock w3) ≤ timegm (clock w) + JWT_EXPIRATION_SECONDS (settings w) →
  ∃ u, get_current_user a w3 = (Ok u, cache_filled name u w3)
    ∧ username u = name ∧ refresh_token u = Some t ∧ confirmed u = true.
Proof.
  intros (i & u & Husel & _ & Hc & [= -> -> _] & _ & Hsel)%login_user_Ok
    Hdb Hcfg Hpeek Hle.
  assert (Hin : (i, u) ∈ select_where (has_username name) 0 (db w))
    by (rewrite Husel; apply list_elem_of_singleton, eq_refl).
  destruct (select_by_username _ _ _ _ Hin) as [_ Hname].
  exists (set_refresh_token
            (Some (create_refresh_token (settings w) {["sub" := JStr name]}
                     None (clock w))) u).
  split; [|by repeat split].
  rewrite (get_current_user_miss w3 _
             (kind_claims "access" name (timegm (clock w))
                (timegm (clock w) + access_ttl (settings w) None))
             name); [by rewrite Hdb, Hsel| |done|done].
  rewrite Hcfg, create_access_token_claims, decode_kind_claims.
  unfold access_ttl. simpl.
  destruct (Z.ltb_spec
              (timegm (clock w) + JWT_EXPIRATION_SECONDS (settings w))
              (timegm (clock w3))); [lia|done].
Qed.

Lemma authenticate_after_login_witness :
  ∃ u, get_current_user (access_at 5000000) (with_clock 3605000000 world1) =
       (Ok u, cache_filled "agent007" u (with_clock 3605000000 world1))
    ∧ username u = "agent007"
    ∧ refresh_token u = Some (refresh_at 5000000) ∧ confirmed u = true.
Proof.
  apply (authenticate_after_login world0 world1
           (with_clock 3605000000 world1) "agent007" "Testtest1!"
           (access_at 5000000) (refresh_at 5000000) "bearer").
  - reflexivity.
  - reflexivity.
  - reflexivity.
  - reflexivity.
  - discriminate.
Defined.

(** ** The cache entry's lifetime *)

Lemma peek_cache_expired (name : string) (u : User) (w : World) (now' : Z) :
  clock w + timedelta_seconds 3600 < now' →
  Redis.peek name (with_clock now' (cache_filled name u w)) = None.
Proof.
  intros Hlt. unfold Redis.peek, Redis.alive. simpl.
  rewrite lookup_insert_eq. simpl.
  destruct (Z.ltb_spec (clock w + timedelta_seconds 3600) now'); [done|lia].
Qed.

(** X9: Once 3600 seconds have passed since [get_current_user] cached a user,
    the entry is dead: the next call for the subject reads the user table
    again, returns the row as it is then and caches that row anew. *)
Theorem cache_entry_expires (w : World) (name : string) (u u' : User)
    (i : nat) (t' : token) (payload' : claims) (now' : Z) :
  clock w + timedelta_seconds 3600 < now' →
  Jose.decode t' (JWT_SECRET (settings w)) [JWT_ALGORITHM (settings w)] now'
    = Ok payload' →
  payload' !! "sub" = Some (JStr name) →
  ∀ rows, select_where (has_username name) 0 rows = [(i, u')] →
  let w' := with_db rows (with_clock now' (cache_filled name u w)) in
  get_current_user t' w' = (Ok u', cache_filled name u' w').
Proof.
  intros Hlt Hdec Hsub rows Hsel w'.
  rewrite (get_current_user_miss w' t' payload' name Hdec Hsub).
  - unfold w' at 1. simpl. by rewrite Hsel.
  - by apply (peek_cache_expired name u w now').
Qed.

Lemma cache_entry_expires_witness :
  let w' := with_db [agent007_user]
              (with_clock 3606000000
                 (cache_filled "agent007" agent007_logged_in world1)) in
  get_current_user (access_at 3000000000) w' =
  (Ok agent007_user, cache_filled "agent007" agent007_user w').
Proof.
  apply (cache_entry_expires world1 "agent007" agent007_logged_in
           agent007_user 0%nat (access_at 3000000000)
           (kind_claims "access" "agent007" 3000 6600) 3606000000).
  - reflexivity.
  - reflexivity.
  - reflexivity.
  - reflexivity.
Defined.

(** ** Lifetimes given by the caller *)

(** X10: [expires_delta] is tested for truth: 0 counts as absent and gives the
    configured lifetime, for access and refresh tokens alike; a negative
    lifetime is taken as given and yields an access token that is already
    expired when it is issued. *)
Theorem expires_delta_edges (cfg : Settings) (data : claims) (sub : string)
    (d now : Z) :
  create_access_token cfg data (Some 0) now =
    create_access_token cfg data None now
  ∧ create_refresh_token cfg data (Some 0) now =
    create_refresh_token cfg data None now
  ∧ (d < 0 →
     Jose.decode (create_access_token cfg {["sub" := JStr sub]} (Some d) now)
       (JWT_SECRET cfg) [JWT_ALGORITHM cfg] now =
     Raise (JWTError ExpiredSignatureError)).
Proof.
  split; [done|split; [done|]]. intros Hd.
  rewrite decode_access_token.
  assert (Httl : access_ttl cfg (Some d) = d).
  { unfold access_ttl, truthy_delta.
    destruct (Z.eqb_spec d 0); [lia|done]. }
  rewrite Httl.
  destruct (Z.ltb_spec (timegm now + d) (timegm now)); [done|lia].
Qed.

Lemma expires_delta_edges_witness :
  Jose.decode
    (create_access_token (default_settings "s3cr3t")
       {["sub" := JStr "agent007"]} (Some (-1)) 5000000)
    "s3cr3t" ["HS256"] 5000000 =
  Raise (JWTError ExpiredSignatureError).
Proof.
  apply (expires_delta_edges (default_settings "s3cr3t") ∅ "agent007" (-1)
           5000000).
  reflexivity.
Defined.

(** ** What the reset and verification routes do to the state *)

Lemma same_but_entropy_tasks (w w' : World) :
  same_but_entropy w w' → background_tasks w' = background_tasks w.
Proof. by intros ->. Qed.

Section reset.

Variables (w : World) (e : string).

(** X11: For the address of a confirmed account the reset route generates a
    temporary password with [generate_temp_password], replaces the stored
    hash of that account by the hash [get_password_hash] makes of that
    password, which verifies against it, hands exactly one reset mail with
    that same password to the background tasks, and leaves every other row
    alone. *)
Theorem forget_password_resets (i : nat) (u : User) :
  select_where (has_email e) 0 (db w) = [(i, u)] →
  confirmed u = true →
  ∃ pw w1 h w2 w',
    generate_temp_password (with_log (log w ++ [DbExecute ByEmail e]) w) =
      (Ok pw, w1)
    ∧ Hash.get_password_hash pw w1 = (Ok h, w2)
    ∧ forget_password e w = (Ok (Message forget_password_message), w')
    ∧ background_tasks w' =
      (background_tasks w ++ [send_reset_password_email e pw])%list
    ∧ db w' = <[i := set_hashed_password h u]> (db w)
    ∧ Hash.verify_password pw h = Ok true.
Proof.
  intros Hsel Hc.
  set (w0 := with_log (log w ++ [DbExecute ByEmail e]) w).
  destruct (generate_temp_password_total w0) as (pw & w1 & Hgen & Hw1 & Hok).
  destruct (get_password_hash_verifies pw w1 Hok)
    as (salt & w2 & Hhash & Hw2).
  assert (Hdb : db w2 = db w).
  { by rewrite (same_but_entropy_db _ _ Hw2), (same_but_entropy_db _ _ Hw1). }
  assert (Htasks : background_tasks w2 = background_tasks w).
  { by rewrite (same_but_entropy_tasks _ _ Hw2),
      (same_but_entropy_tasks _ _ Hw1). }
  exists pw, w1, (BcryptHash salt (Passlib.digest_input pw)), w2. eexists.
  split; [done|]. split; [done|].
  unfold forget_password, UserService.get_user_by_email,
    UserRepository.get_user_by_email. run. rewrite Hsel. simpl.
  rewrite Hc. simpl. fold w0. rewrite Hgen, Hhash.
  unfold UserService.update_hashed_password,
    UserRepository.update_hashed_password,
    UserRepository.get_user_by_email, assign, add_task. run.
  rewrite Hdb, Hsel. simpl.
  split; [reflexivity|]. simpl. rewrite Hdb, Htasks.
  repeat split. exact (verify_password_digest salt pw Hok).
Qed.

(** X12: For an address that is not registered, or whose account is not
    confirmed, the reset route changes no row, hands no mail to the
    background tasks and draws no random number. *)
Theorem forget_password_no_effect :
  (select_where (has_email e) 0 (db w) = []
   ∨ ∃ i u, select_where (has_email e) 0 (db w) = [(i, u)]
            ∧ confirmed u = false) →
  (forget_password e w).2 = with_log (log w ++ [DbExecute ByEmail e]) w.
Proof.
  unfold forget_password, UserService.get_user_by_email,
    UserRepository.get_user_by_email. run.
  intros [->|(i & u & -> & Hc)]; simpl; [done|]. by rewrite Hc.
Qed.

(** X13: The verification-request route hands one verification mail, addressed
    with the account's own email and user name and the caller's base URL,
    to the background tasks when the address belongs to an unconfirmed
    account, and none otherwise; it never writes to the user table. *)
Theorem request_email_effects (base_url : string) :
  db (request_email e base_url w).2 = db w
  ∧ (∀ i u, select_where (has_email e) 0 (db w) = [(i, u)] →
     confirmed u = false →
     background_tasks (request_email e base_url w).2 =
     (background_tasks w
      ++ [send_email (email u) (username u) base_url])%list)
  ∧ (select_where (has_email e) 0 (db w) = []
     ∨ (∃ i u, select_where (has_email e) 0 (db w) = [(i, u)]
               ∧ confirmed u = true) →
     background_tasks (request_email e base_url w).2 = background_tasks w).
Proof.
  unfold request_email, UserService.get_user_by_email,
    UserRepository.get_user_by_email, add_task. run.
  split; [|split].
  - destruct (scalar_one_or_none _) as [[[i u]|]|x]; simpl; try done.
    by destruct (confirmed u).
  - intros i u -> Hc. simpl. by rewrite Hc.
  - intros [->|(i & u & -> & Hc)]; simpl; [done|]. by rewrite Hc.
Qed.

End reset.

Lemma forget_password_resets_witness :
  ∃ pw w1 h w2 w',
    generate_temp_password
      (with_log (log world0 ++ [DbExecute ByEmail "agent007@gmail.com"])
         world0) = (Ok pw, w1)
    ∧ Hash.get_password_hash pw w1 = (Ok h, w2)
    ∧ forget_password "agent007@gmail.com" world0 =
      (Ok (Message forget_password_message), w')
    ∧ background_tasks w' =
      (background_tasks world0
       ++ [send_reset_password_email "agent007@gmail.com" pw])%list
    ∧ db w' = <[0%nat := set_hashed_password h agent007]> (db world0)
    ∧ Hash.verify_password pw h = Ok true.
Proof.
  apply (forget_password_resets world0 "agent007@gmail.com" 0%nat agent007);
    reflexivity.
Defined.

Lemma forget_password_no_effect_witness :
  (forget_password "nobody@gmail.com" world0).2 =
    with_log (log world0 ++ [DbExecute ByEmail "nobody@gmail.com"]) world0
  ∧ (forget_password "agent007@gmail.com" world_unconfirmed).2 =
    with_log (log world_unconfirmed
              ++ [DbExecute ByEmail "agent007@gmail.com"]) world_unconfirmed.
Proof.
  split.
  - apply (forget_password_no_effect world0 "nobody@gmail.com").
    left. reflexivity.
  - apply (forget_password_no_effect world_unconfirmed "agent007@gmail.com").
    right. exists 0%nat, agent007_unconfirmed. split; reflexivity.
Defined.

Lemma request_email_effects_witness :
  background_tasks
    (request_email "agent007@gmail.com" "http://testserver/"
       world_unconfirmed).2 =
    (background_tasks world_unconfirmed
     ++ [send_email "agent007@gmail.com" "agent007"
           "http://testserver/"])%list
  ∧ background_tasks
      (request_email "agent007@gmail.com" "http://testserver/" world0).2 =
    background_tasks world0.
Proof.
  split.
  - apply (proj1 (proj2 (request_email_effects world_unconfirmed
                           "agent007@gmail.com" "http://testserver/"))
             0%nat agent007_unconfirmed); reflexivity.
  - apply (proj2 (proj2 (request_email_effects world0 "agent007@gmail.com"
                           "http://testserver/"))).
    right. exists 0%nat, agent007. split; reflexivity.
Defined.

(** ** Email confirmation *)

Lemma validate_claims_of_lookups (c : claims) (iat exp now : Z)
    (sub : string) :
  c !! "iat" = Some (JInt iat) →
  c !! "exp" = Some (JInt exp) →
  c !! "sub" = Some (JStr sub) →
  c !! "nbf" = None → c !! "aud" = None → c !! "jti" = None →
  c !! "at_hash" = None →
  Jose.validate_claims c now =
  if exp <? timegm now then Raise (JWTError ExpiredSignatureError)
  else Ok c.
Proof.
  intros Hiat Hexp Hsub Hnbf Haud Hjti Hhash.
  unfold Jose.validate_claims, Jose.validate_iat, Jose.validate_nbf,
    Jose.validate_exp, Jose.validate_aud, Jose.validate_sub,
    Jose.validate_jti, Jose.validate_at_hash.
  rewrite Hiat, Hexp, Hsub, Hnbf, Haud, Hjti, Hhash. simpl.
  by destruct (exp <? timegm now).
Qed.

(** A claim that [create_email_token] does not set is as in the data. *)
Lemma create_email_token_other (cfg : Settings) (data : claims)
    (now_expire now_iat : Z) (c : claims) (k a : string) (key : string) :
  create_email_token cfg data now_expire now_iat = Jws c k a →
  key ≠ "exp" → key ≠ "iat" → data !! key = None → c !! key = None.
Proof.
  intros [= <- _ _] Hexp Hiat Hnone.
  assert (Hin : (<["exp" := JDatetime (now_expire + timedelta_days 7)]>
                   (<["iat" := JDatetime now_iat]> data)) !! key = None)
    by (by rewrite !lookup_insert_ne).
  assert (Hconv : ∀ k' (m : claims),
             m !! key = None → Jose.convert_time_claim k' m !! key = None).
  { intros k' m Hm. destruct (decide (k' = key)) as [->|Hne].
    - unfold Jose.convert_time_claim. by rewrite Hm.
    - by rewrite convert_time_claim_ne. }
  by apply Hconv, Hconv, Hconv.
Qed.

Lemma decode_verification_token (cfg : Settings) (e : string)
    (now_expire now_iat now : Z) :
  ∃ c, c !! "sub" = Some (JStr e)
    ∧ Jose.decode (verification_token cfg e now_expire now_iat)
        (JWT_SECRET cfg) [JWT_ALGORITHM cfg] now =
      if timegm now_expire + 604800 <? timegm now
      then Raise (JWTError ExpiredSignatureError) else Ok c.
Proof.
  destruct (create_email_token_claims cfg {["sub" := JStr e]} now_expire
              now_iat) as (c & Hc & Hexp & Hiat & _ & Hsub).
  exists c. split; [done|].
  unfold verification_token. rewrite Hc, decode_own_key.
  apply (validate_claims_of_lookups c (timegm now_iat) _ now e);
    try done;
    by apply (create_email_token_other cfg {["sub" := JStr e]} now_expire
                now_iat c _ _ _ Hc).
Qed.

Section confirm.

Variables (w : World) (e : string) (now_expire now_iat : Z).

Let t : token := verification_token (settings w) e now_expire now_iat.

Lemma get_email_from_token_fresh :
  timegm (clock w) ≤ timegm now_expire + 604800 →
  get_email_from_token t w = (Ok e, w).
Proof.
  intros Hclock.
  destruct (decode_verification_token (settings w) e now_expire now_iat
              (clock w)) as (c & Hsub & Hdec).
  fold t in Hdec.
  apply (get_email_from_token_decoded w t c e); [|done].
  rewrite Hdec.
  destruct (Z.ltb_spec (timegm now_expire + 604800) (timegm (clock w)));
    [lia|done].
Qed.

(** What the confirmation route does once the token has given the
    address. *)
Lemma confirm_email_run :
  timegm (clock w) ≤ timegm now_expire + 604800 →
  let w0 := with_log (log w ++ [DbExecute ByEmail e]) w in
  confirm_email t w =
  match scalar_one_or_none (select_where (has_email e) 0 (db w)) with
  | Ok (Some (_, u)) =>
      if confirmed u then
        (Raise (HTTPException 400 "Email is already confirmed" []), w0)
      else
        (let (r, w') := UserServiceMore.confirm_email e w0 in
         match r with
         | Ok _ => (Ok (Message "Email was confirmed"), w')
         | Raise x => (Raise x, w')
         end)
  | Ok None => (Raise (HTTPException 400 "Verification error" []), w0)
  | Raise x => (Raise x, w0)
  end.
Proof.
  intros Hclock w0.
  unfold confirm_email. unfold mbind at 1, M_bind at 1.
  rewrite (get_email_from_token_fresh Hclock).
  unfold UserService.get_user_by_email, UserRepository.get_user_by_email.
  run. fold w0.
  destruct (scalar_one_or_none _) as [[[i u]|]|x]; try done.
  by destruct (confirmed u).
Qed.

Lemma confirm_email_confirms (i : nat) (u : User) :
  timegm (clock w) ≤ timegm now_expire + 604800 →
  select_where (has_email e) 0 (db w) = [(i, u)] →
  confirmed u = false →
  ∃ w', confirm_email t w = (Ok (Message "Email was confirmed"), w')
    ∧ db w' = <[i := set_confirmed true u]> (db w)
    ∧ background_tasks w' = background_tasks w ∧ redis w' = redis w.
Proof.
  intros Hclock Hsel Hc. rewrite (confirm_email_run Hclock), Hsel. simpl.
  rewrite Hc.
  unfold UserServiceMore.confirm_email, UserRepositoryMore.confirm_email,
    UserRepository.get_user_by_email, assign. run. rewrite Hsel. simpl.
  eexists. split; [reflexivity|]. by simpl.
Qed.

(** X14: The token of a verification mail gives back the mailed address for
    seven days: [get_email_from_token] returns it while the clock's second
    is at most 604800 past the second of issue, and raises 422 "Invalid
    token for email verification" from then on; either way it changes
    nothing. *)
Theorem get_email_from_token_roundtrip :
  (timegm (clock w) ≤ timegm now_expire + 604800 →
   get_email_from_token t w = (Ok e, w))
  ∧ (timegm now_expire + 604800 < timegm (clock w) →
     get_email_from_token t w =
     (Raise (HTTPException 422 "Invalid token for email verification" []),
      w)).
Proof.
  split; [apply get_email_from_token_fresh|]. intros Hclock.
  destruct (decode_verification_token (settings w) e now_expire now_iat
              (clock w)) as (c & Hsub & Hdec).
  fold t in Hdec.
  apply (get_email_from_token_undecodable w t
           (JWTError ExpiredSignatureError)).
  rewrite Hdec.
  destruct (Z.ltb_spec (timegm now_expire + 604800) (timegm (clock w)));
    [done|lia].
Qed.

(** X15: Presented within seven days, the token of a verification mail makes the
    confirmation route mark the account of the mailed address confirmed,
    changing that one field of that one row; for an address without account
    the route answers 400 "Verification error" and for an account already
    confirmed 400 "Email is already confirmed", both without writing. *)
Theorem confirm_email_outcomes :
  timegm (clock w) ≤ timegm now_expire + 604800 →
  let w0 := with_log (log w ++ [DbExecute ByEmail e]) w in
  (∀ i u, select_where (has_email e) 0 (db w) = [(i, u)] →
     confirmed u = false →
     ∃ w', confirm_email t w = (Ok (Message "Email was confirmed"), w')
       ∧ db w' = <[i := set_confirmed true u]> (db w)
       ∧ background_tasks w' = background_tasks w ∧ redis w' = redis w)
  ∧ (∀ i u, select_where (has_email e) 0 (db w) = [(i, u)] →
     confirmed u = true →
     confirm_email t w =
     (Raise (HTTPException 400 "Email is already confirmed" []), w0))
  ∧ (select_where (has_email e) 0 (db w) = [] →
     confirm_email t w =
     (Raise (HTTPException 400 "Verification error" []), w0)).
Proof.
  intros Hclock w0. split; [|split].
  - intros i u Hsel Hc. by apply confirm_email_confirms.
  - intros i u Hsel Hc. rewrite (confirm_email_run Hclock), Hsel. simpl.
    by rewrite Hc.
  - intros Hsel. by rewrite (confirm_email_run Hclock), Hsel.
Qed.

End confirm.

Lemma get_email_from_token_roundtrip_witness :
  let t := verification_token (default_settings "s3cr3t")
             "agent007@gmail.com" 5000000 5000000 in
  get_email_from_token t world0 = (Ok "agent007@gmail.com", world0)
  ∧ get_email_from_token t (with_clock 604806000000 world0) =
    (Raise (HTTPException 422 "Invalid token for email verification" []),
     with_clock 604806000000 world0).
Proof.
  split.
  - apply (proj1 (get_email_from_token_roundtrip world0
                    "agent007@gmail.com" 5000000 5000000)).
    discriminate.
  - apply (proj2 (get_email_from_token_roundtrip
                    (with_clock 604806000000 world0)
                    "agent007@gmail.com" 5000000 5000000)).
    reflexivity.
Defined.

Lemma confirm_email_outcomes_witness :
  let t := verification_token (default_settings "s3cr3t")
             "agent007@gmail.com" 5000000 5000000 in
  (∃ w', confirm_email t world_unconfirmed =
         (Ok (Message "Email was confirmed"), w')
     ∧ db w' = <[0%nat := set_confirmed true agent007_unconfirmed]>
                 (db world_unconfirmed)
     ∧ background_tasks w' = background_tasks world_unconfirmed
     ∧ redis w' = redis world_unconfirmed)
  ∧ confirm_email t world0 =
    (Raise (HTTPException 400 "Email is already confirmed" []),
     with_log (log world0 ++ [DbExecute ByEmail "agent007@gmail.com"])
       world0)
  ∧ confirm_email t (with_db [] world0) =
    (Raise (HTTPException 400 "Verification error" []),
     with_log (log world0 ++ [DbExecute ByEmail "agent007@gmail.com"])
       (with_db [] world0)).
Proof.
  assert (Hclock : ∀ w', clock w' = 5000000 →
            timegm (clock w') ≤ timegm 5000000 + 604800)
    by (intros w' ->; discriminate).
  split; [|split].
  - apply (proj1 (confirm_email_outcomes world_unconfirmed
                    "agent007@gmail.com" 5000000 5000000
                    (Hclock world_unconfirmed eq_refl))
             0%nat agent007_unconfirmed);
      reflexivity.
  - apply (proj1 (proj2 (confirm_email_outcomes world0
                    "agent007@gmail.com" 5000000 5000000
                    (Hclock world0 eq_refl))) 0%nat agent007); reflexivity.
  - apply (proj2 (proj2 (confirm_email_outcomes (with_db [] world0)
                    "agent007@gmail.com" 5000000 5000000
                    (Hclock (with_db [] world0) eq_refl)))); reflexivity.
Defined.

(** X16: Confirmation unlocks login.  For an unconfirmed account whose user name
    and email each select its row alone, a login with the right password
    is refused with "Email is not confirmed"; once the confirmation route
    has accepted the mailed token, the same login succeeds and returns a
    token pair. *)
Theorem confirmation_unlocks_login (w : World) (name pw : string)
    (now_expire now_iat : Z) (i : nat) (u : User) :
  select_where (has_username name) 0 (db w) = [(i, u)] →
  select_where (has_email (email u)) 0 (db w) = [(i, u)] →
  Hash.verify_password pw (hashed_password u) = Ok true →
  confirmed u = false →
  timegm (clock w) ≤ timegm now_expire + 604800 →
  (login_user name pw w).1 =
    Raise (HTTPException 401 "Email is not confirmed" [])
  ∧ ∃ w1, confirm_email
            (verification_token (settings w) (email u) now_expire now_iat) w
          = (Ok (Message "Email was confirmed"), w1)
      ∧ ∃ a t w2, login_user name pw w1 = (Ok (TokenModel a t "bearer"), w2).
Proof.
  intros Hsel Hem Hv Hc Hclock. split.
  - by rewrite (login_user_unconfirmed w name pw i u Hsel Hv Hc).
  - destruct (confirm_email_confirms w (email u) now_expire now_iat i u
                Hclock Hem Hc) as (w1 & Hrun & Hdb & _).
    exists w1. split; [done|].
    destruct (select_where_unique_insert (has_username name) (db w) i u
                (set_confirmed true u) Hsel eq_refl) as [_ Hsel1].
    destruct (select_where_unique_insert (has_email (email u)) (db w) i u
                (set_confirmed true u) Hem eq_refl) as [_ Hem1].
    rewrite <- Hdb in Hsel1, Hem1.
    destruct (login_user_passes w1 name pw i (set_confirmed true u) Hsel1
                Hem1 Hv eq_refl) as (w2 & Hlogin & _).
    eauto.
Qed.

Lemma confirmation_unlocks_login_witness :
  (login_user "agent007" "Testtest1!" world_unconfirmed).1 =
    Raise (HTTPException 401 "Email is not confirmed" [])
  ∧ ∃ w1, confirm_email
            (verification_token (settings world_unconfirmed)
               (email agent007_unconfirmed) 5000000 5000000)
            world_unconfirmed
          = (Ok (Message "Email was confirmed"), w1)
      ∧ ∃ a t w2, login_user "agent007" "Testtest1!" w1 =
                  (Ok (TokenModel a t "bearer"), w2).
Proof.
  apply (confirmation_unlocks_login world_unconfirmed "agent007"
           "Testtest1!" 5000000 5000000 0%nat agent007_unconfirmed).
  - reflexivity.
  - reflexivity.
  - reflexivity.
  - reflexivity.
  - discriminate.
Defined.

(** ** The account routes *)

Section resolve_object.

Variables (w : World) (t : token) (payload : claims) (name : string).

Hypothesis Hdec :
  Jose.decode t (JWT_SECRET (settings w)) [JWT_ALGORITHM (settings w)]
    (clock w) = Ok payload.
Hypothesis Hsub : payload !! "sub" = Some (JStr name).

Lemma get_current_user_object_cached (u : User) :
  Redis.peek name w = Some (Pickled u) →
  get_current_user_object t w =
  (Ok (Detached u), with_log (log w ++ [RedisGet name]) w).
Proof.
  intros Hpeek. unfold get_current_user_object. run. rewrite Hdec. simpl.
  rewrite Hsub. simpl. unfold Redis.get. simpl. by rewrite Hpeek.
Qed.

Lemma get_current_user_object_miss (i : nat) (u : User) :
  Redis.peek name w = None →
  select_where (has_username name) 0 (db w) = [(i, u)] →
  get_current_user_object t w = (Ok (Persistent i u), cache_filled name u w).
Proof.
  intros Hpeek Hsel. unfold get_current_user_object. run. rewrite Hdec. simpl.
  rewrite Hsub. simpl. unfold Redis.get. simpl. rewrite Hpeek.
  unfold UserService.get_user_by_username,
    UserRepository.get_user_by_username. simpl. rewrite Hsel. simpl.
  unfold Redis.expire, Redis.peek, with_redis, with_log, cache_filled. simpl.
  rewrite lookup_insert_eq. simpl.
  by rewrite insert_insert_eq, <- !(assoc_L (++)).
Qed.

End resolve_object.

(** The user [get_current_user] returns is the value of the object it
    hands over, at the moment it does so. *)
Lemma get_current_user_object_value (t : token) (w : World) :
  get_current_user t w = (user ← get_current_user_object t; getattr user) w.
Proof.
  unfold get_current_user, get_current_user_object.
  set (resolve := try_except_JWTError _ _).
  unfold mbind, M_bind, getattr.
  destruct (resolve w) as [[name|e] w1]; [|done].
  unfold Redis.get.
  destruct (Redis.peek name w1) as [b|].
  - unfold lift. by destruct (deserialize_user b).
  - unfold UserService.get_user_by_username,
      UserRepository.get_user_by_username.
    change (db (with_log (log w1 ++ [RedisGet name]) w1)) with (db w1).
    destruct (scalar_one_or_none _) as [[[i u]|]|e] eqn:Hsel; try done.
    apply scalar_one_or_none_Some in Hsel.
    assert (Hi : db w1 !! i = Some u).
    { assert (Hin : (i, u) ∈ select_where (has_username name) 0 (db w1))
        by (rewrite Hsel; apply list_elem_of_singleton, eq_refl).
      by apply select_by_username in Hin as [Hi _]. }
    unfold Redis.set, Redis.expire, mret, M_ret. simpl.
    destruct (Redis.peek _ _); simpl; by rewrite Hi.
Qed.

(** What the handler does once the old password has passed and bcrypt
    takes the new one. *)
Lemma update_user_password_writes (w : World) (old new : string)
    (user : user_object) (i : nat) (u : User) :
  Hash.verify_password old (hashed_password (value_of user w)) = Ok true →
  bcrypt_accepts new = true →
  select_where (has_email (email (value_of user w))) 0 (db w) = [(i, u)] →
  ∃ h w', update_user_password old new user w = (Ok (value_of user w'), w')
    ∧ db w' = <[i := set_hashed_password h u]> (db w)
    ∧ redis w' = redis w ∧ clock w' = clock w
    ∧ Hash.verify_password new h = Ok true.
Proof.
  intros Hv Hok Hsel.
  destruct (get_password_hash_verifies new w Hok) as (salt & w1 & Hhash & Hw1).
  exists (BcryptHash salt (Passlib.digest_input new)). eexists.
  unfold update_user_password, getattr. run. rewrite Hv. simpl.
  rewrite Hhash.
  unfold UserService.update_hashed_password,
    UserRepository.update_hashed_password,
    UserRepository.get_user_by_email, assign. run.
  rewrite (same_but_entropy_db _ _ Hw1), Hsel. simpl.
  split; [reflexivity|]. simpl. rewrite (same_but_entropy_db _ _ Hw1).
  split; [done|]. rewrite Hw1. simpl.
  repeat split. exact (verify_password_digest salt new Hok).
Qed.

Section password.

Variables (w : World) (old new : string).

(** X17: The password handler returns the object it was given, so the answer
    has the values of that object at the end.  With a wrong old password
    it changes nothing.  With the right one and a new password that bcrypt
    takes, it replaces the hash in the row found by the user's email with
    a hash of the new password and leaves the other rows alone: a user
    that came from the cache is returned as it came, with the old hash,
    while a user that is the session's object of that row is returned with
    the new hash; so the route answers after a cache miss, and the cache
    then holds the row with the old hash.  When the email of a cached user
    has no row, the write raises [AttributeError]; when bcrypt does not
    take the new password, hashing raises and nothing is written. *)
Theorem update_user_password_outcomes :
  (∀ user,
     Hash.verify_password old (hashed_password (value_of user w)) = Ok false →
     update_user_password old new user w = (Ok (value_of user w), w))
  ∧ (∀ cached i u,
       Hash.verify_password old (hashed_password cached) = Ok true →
       bcrypt_accepts new = true →
       select_where (has_email (email cached)) 0 (db w) = [(i, u)] →
       ∃ h w',
         update_user_password old new (Detached cached) w = (Ok cached, w')
         ∧ db w' = <[i := set_hashed_password h u]> (db w)
         ∧ Hash.verify_password new h = Ok true)
  ∧ (∀ loaded i u,
       Hash.verify_password old (hashed_password u) = Ok true →
       bcrypt_accepts new = true →
       select_where (has_email (email u)) 0 (db w) = [(i, u)] →
       ∃ h w',
         update_user_password old new (Persistent i loaded) w =
           (Ok (set_hashed_password h u), w')
         ∧ db w' = <[i := set_hashed_password h u]> (db w)
         ∧ Hash.verify_password new h = Ok true)
  ∧ (∀ t payload name i u,
       Jose.decode t (JWT_SECRET (settings w)) [JWT_ALGORITHM (settings w)]
         (clock w) = Ok payload →
       payload !! "sub" = Some (JStr name) →
       Redis.peek name w = None →
       select_where (has_username name) 0 (db w) = [(i, u)] →
       select_where (has_email (email u)) 0 (db w) = [(i, u)] →
       Hash.verify_password old (hashed_password u) = Ok true →
       bcrypt_accepts new = true →
       ∃ h w',
         update_user_password_route t old new w =
           (Ok (set_hashed_password h u), w')
         ∧ db w' = <[i := set_hashed_password h u]> (db w)
         ∧ Hash.verify_password new h = Ok true
         ∧ Redis.peek name w' = Some (Pickled u))
  ∧ (∀ cached,
       Hash.verify_password old (hashed_password cached) = Ok true →
       bcrypt_accepts new = true →
       select_where (has_email (email cached)) 0 (db w) = [] →
       (update_user_password old new (Detached cached) w).1 =
         Raise (AttributeError "NoneType" "hashed_password")
       ∧ db (update_user_password old new (Detached cached) w).2 = db w)
  ∧ (∀ user,
       Hash.verify_password old (hashed_password (value_of user w)) = Ok true →
       bcrypt_accepts new = false →
       ∃ e, (update_user_password old new user w).1 = Raise e
         ∧ (e = PasswordSizeError ∨ e = PasswordValueError)
         ∧ db (update_user_password old new user w).2 = db w).
Proof.
  assert (Hrow : ∀ loaded i u h w',
            select_where (has_email (email u)) 0 (db w) = [(i, u)] →
            db w' = <[i := set_hashed_password h u]> (db w) →
            value_of (Persistent i loaded) w = u
            ∧ value_of (Persistent i loaded) w' = set_hashed_password h u).
  { intros loaded i u h w' Hsel Hdb.
    destruct (select_where_unique_insert _ _ _ _ u Hsel eq_refl) as [Hi _].
    simpl. rewrite Hi, Hdb, list_lookup_insert_eq; [done|].
    by eapply lookup_lt_Some. }
  split; [|split; [|split; [|split; [|split]]]].
  - intros user Hv. unfold update_user_password, getattr. run.
    by rewrite Hv.
  - intros cached i u Hv Hok Hsel.
    destruct (update_user_password_writes w old new (Detached cached) i u
                Hv Hok Hsel) as (h & w' & Hrun & Hdb & _ & _ & Hnew).
    eauto.
  - intros loaded i u Hv Hok Hsel.
    assert (Hval : value_of (Persistent i loaded) w = u).
    { destruct (select_where_unique_insert _ _ _ _ u Hsel eq_refl) as [Hi _].
      simpl. by rewrite Hi. }
    destruct (update_user_password_writes w old new (Persistent i loaded)
                i u)
      as (h & w' & Hrun & Hdb & _ & _ & Hnew); rewrite ?Hval; try done.
    exists h, w'. destruct (Hrow loaded i u h w' Hsel Hdb) as [_ Hafter].
    by rewrite Hrun, Hafter.
  - intros t payload name i u Hdec Hsub Hpeek Husel Hsel Hv Hok.
    set (w0 := cache_filled name u w).
    assert (Hval : value_of (Persistent i u) w0 = u).
    { destruct (select_where_unique_insert _ _ _ _ u Hsel eq_refl) as [Hi _].
      simpl. by rewrite Hi. }
    unfold update_user_password_route. unfold mbind at 1, M_bind at 1.
    rewrite (get_current_user_object_miss w t payload name Hdec Hsub i u
               Hpeek Husel).
    fold w0.
    assert (Hrun : ∃ h w',
              update_user_password old new (Persistent i u) w0 =
                (Ok (value_of (Persistent i u) w'), w')
              ∧ db w' = <[i := set_hashed_password h u]> (db w0)
              ∧ redis w' = redis w0 ∧ clock w' = clock w0
              ∧ Hash.verify_password new h = Ok true).
    { apply (update_user_password_writes w0 old new (Persistent i u) i u);
        rewrite ?Hval; done. }
    destruct Hrun as (h & w' & Hrun & Hdb & Hredis & Hclock & Hnew).
    exists h, w'.
    destruct (Hrow u i u h w' Hsel Hdb) as [_ Hafter].
    rewrite Hrun, Hafter. repeat split; try done.
    unfold Redis.peek. rewrite Hredis, Hclock.
    by apply (peek_cache_filled name u w (clock w)), Z.le_sub_le_add_l;
      unfold timedelta_seconds; lia.
  - intros cached Hv Hok Hsel.
    destruct (get_password_hash_verifies new w Hok)
      as (salt & w1 & Hhash & Hw1).
    unfold update_user_password, getattr. run. rewrite Hv. simpl.
    rewrite Hhash.
    unfold UserService.update_hashed_password,
      UserRepository.update_hashed_password,
      UserRepository.get_user_by_email, assign. run.
    rewrite (same_but_entropy_db _ _ Hw1), Hsel. simpl.
    split; [done|]. by rewrite (same_but_entropy_db _ _ Hw1).
  - intros user Hv Hno.
    destruct (get_password_hash_refuses new w Hno)
      as (e & w1 & Hhash & He & Hw1).
    exists e. unfold update_user_password, getattr. run. rewrite Hv. simpl.
    rewrite Hhash. simpl.
    split; [done|]. split; [done|]. by rewrite (same_but_entropy_db _ _ Hw1).
Qed.

End password.

Lemma update_user_password_outcomes_witness :
  update_user_password "password" "SomeNewPass1!" (Detached agent007) world0 =
    (Ok agent007, world0)
  ∧ (∃ h w', update_user_password "Testtest1!" "SomeNewPass1!"
               (Detached agent007) world0 = (Ok agent007, w')
       ∧ db w' = <[0%nat := set_hashed_password h agent007]> (db world0)
       ∧ Hash.verify_password "SomeNewPass1!" h = Ok true)
  ∧ (∃ h w', update_user_password "Testtest1!" "SomeNewPass1!"
               (Persistent 0 agent007) world0 =
             (Ok (set_hashed_password h agent007), w')
       ∧ db w' = <[0%nat := set_hashed_password h agent007]> (db world0)
       ∧ Hash.verify_password "SomeNewPass1!" h = Ok true)
  ∧ (∃ h w', update_user_password_route (access_at 5000000) "Testtest1!"
               "SomeNewPass1!" world1 =
             (Ok (set_hashed_password h agent007_logged_in), w')
       ∧ db w' = <[0%nat := set_hashed_password h agent007_logged_in]>
                   (db world1)
       ∧ Hash.verify_password "SomeNewPass1!" h = Ok true
       ∧ Redis.peek "agent007" w' = Some (Pickled agent007_logged_in))
  ∧ ((update_user_password "Testtest1!" "SomeNewPass1!" (Detached agent007)
        (with_db [] world0)).1 =
       Raise (AttributeError "NoneType" "hashed_password")
     ∧ db (update_user_password "Testtest1!" "SomeNewPass1!"
             (Detached agent007) (with_db [] world0)).2 =
       db (with_db [] world0))
  ∧ ∃ e, (update_user_password "Testtest1!" nul_password (Detached agent007)
            world0).1 = Raise e
      ∧ (e = PasswordSizeError ∨ e = PasswordValueError)
      ∧ db (update_user_password "Testtest1!" nul_password
              (Detached agent007) world0).2 = db world0.
Proof.
  destruct (update_user_password_outcomes world0 "password" "SomeNewPass1!")
    as (Hwrong & _).
  destruct (update_user_password_outcomes world0 "Testtest1!"
              "SomeNewPass1!") as (_ & Hcached & Hloaded & _).
  destruct (update_user_password_outcomes world1 "Testtest1!"
              "SomeNewPass1!") as (_ & _ & _ & Hroute & _).
  destruct (update_user_password_outcomes (with_db [] world0) "Testtest1!"
              "SomeNewPass1!") as (_ & _ & _ & _ & Hnorow & _).
  destruct (update_user_password_outcomes world0 "Testtest1!" nul_password)
    as (_ & _ & _ & _ & _ & Hnul).
  split; [|split; [|split; [|split; [|split]]]].
  - apply (Hwrong (Detached agent007)). reflexivity.
  - apply (Hcached agent007 0%nat agent007); reflexivity.
  - apply (Hloaded agent007 0%nat agent007); reflexivity.
  - apply (Hroute (access_at 5000000)
             (kind_claims "access" "agent007" 5 3605) "agent007" 0%nat
             agent007_logged_in); reflexivity.
  - apply (Hnorow agent007); reflexivity.
  - apply (Hnul (Detached agent007)); reflexivity.
Defined.

(** ** Writes for an address that has no row *)

(** X18: The four writes of the repository differ when the address has no row:
    [update_avatar_url] returns [None], the other three read an attribute
    of [None] and raise [AttributeError]; none of them changes the table,
    and none commits. *)
Theorem writes_without_row (w : World) (e url : string) (h : hashed)
    (t : token) :
  select_where (has_email e) 0 (db w) = [] →
  let w0 := with_log (log w ++ [DbExecute ByEmail e]) w in
  UserRepositoryMore.update_avatar_url e url w = (Ok None, w0)
  ∧ UserRepositoryMore.confirm_email e w =
    (Raise (AttributeError "NoneType" "confirmed"), w0)
  ∧ UserRepository.update_hashed_password e h w =
    (Raise (AttributeError "NoneType" "hashed_password"), w0)
  ∧ UserRepository.update_refresh_token e t w =
    (Raise (AttributeError "NoneType" "refresh_token"), w0).
Proof.
  intros Hsel w0.
  unfold UserRepositoryMore.update_avatar_url,
    UserRepositoryMore.confirm_email, UserRepository.update_hashed_password,
    UserRepository.update_refresh_token, UserRepository.get_user_by_email.
  run. by rewrite Hsel.
Qed.

Lemma writes_without_row_witness :
  let w0 := with_log (log world0 ++ [DbExecute ByEmail "nobody@gmail.com"])
              world0 in
  UserRepositoryMore.update_avatar_url "nobody@gmail.com"
    "http://example.com/avatar.jpg" world0 = (Ok None, w0)
  ∧ UserRepositoryMore.confirm_email "nobody@gmail.com" world0 =
    (Raise (AttributeError "NoneType" "confirmed"), w0)
  ∧ UserRepository.update_hashed_password "nobody@gmail.com"
      (BcryptHash 1 "x") world0 =
    (Raise (AttributeError "NoneType" "hashed_password"), w0)
  ∧ UserRepository.update_refresh_token "nobody@gmail.com" (Opaque "x")
      world0 =
    (Raise (AttributeError "NoneType" "refresh_token"), w0).
Proof.
  apply (writes_without_row world0 "nobody@gmail.com"
           "http://example.com/avatar.jpg" (BcryptHash 1 "x") (Opaque "x")).
  reflexivity.
Defined.

(** ** What the calls leave alone *)

Section preserves.

Context {S A B : Type} (proj : World → S).

Lemma preserves_bind (m : M A) (f : A → M B) :
  preserves proj m → (∀ a, preserves proj (f a)) →
  preserves proj (m ≫= f).
Proof.
  intros Hm Hf w. unfold mbind, M_bind. specialize (Hm w).
  destruct (m w) as [[a|e] w1]; simpl in *; [|done].
  by rewrite (Hf a w1).
Qed.

Lemma preserves_try (body handler : M A) :
  preserves proj body → preserves proj handler →
  preserves proj (try_except_JWTError body handler).
Proof.
  intros Hb Hh w. unfold try_except_JWTError. specialize (Hb w).
  destruct (body w) as [[a|e] w1]; simpl in *; [done|].
  destruct e; try done. by rewrite (Hh w1).
Qed.

(** A call that only uses up random draws preserves what does not depend
    on them. *)
Lemma preserves_draws (m : M A) :
  (∀ w e, proj (with_entropy e w) = proj w) →
  (∀ w, same_but_entropy w (m w).2) →
  preserves proj m.
Proof. intros Hproj Hm w. rewrite (Hm w). apply Hproj. Qed.

End preserves.

(** A write through the row found by email keeps the key columns when the
    new row has the keys of the old one. *)
Lemma keeps_keys_write {A} (e : string) (f : User → User)
    (k : nat → User → M A) (none : M A) :
  (∀ u, row_keys (f u) = row_keys u) →
  (∀ i u, preserves key_columns (k i u)) → preserves key_columns none →
  preserves key_columns
    (user ← UserRepository.get_user_by_email e;
     match user with
     | Some (i, u) => assign i (f u);; k i u
     | None => none
     end).
Proof.
  intros Hf Hk Hnone w.
  unfold UserRepository.get_user_by_email, assign. run.
  destruct (scalar_one_or_none _) as [[[i u]|]|x] eqn:Hsel; simpl; try done.
  - apply scalar_one_or_none_Some in Hsel.
    assert (Hi : db w !! i = Some u).
    { assert (Hin : (i, u) ∈ select_where (has_email e) 0 (db w))
        by (rewrite Hsel; apply list_elem_of_singleton, eq_refl).
      by apply select_where_lookup in Hin as (n & -> & Hn & _). }
    rewrite (Hk i u _). unfold key_columns. simpl.
    rewrite list_fmap_insert, Hf. apply list_insert_id.
    by rewrite list_lookup_fmap, Hi.
  - by rewrite (Hnone _).
Qed.

(** Steps that are plain state functions. *)
Ltac preserves_step :=
  solve [ intros ?w; reflexivity
        | intros ?w; unfold Redis.expire;
          destruct (Redis.peek _ _); reflexivity ].

Lemma update_hashed_password_keeps_keys (e : string) (h : hashed) :
  preserves key_columns (UserRepository.update_hashed_password e h).
Proof.
  apply (keeps_keys_write e (set_hashed_password h) (λ _ _, emit DbCommit));
    [done|intros; preserves_step|preserves_step].
Qed.

Lemma update_refresh_token_keeps_keys (e : string) (t : token) :
  preserves key_columns (UserRepository.update_refresh_token e t).
Proof.
  apply (keeps_keys_write e (set_refresh_token (Some t))
           (λ i u, emit DbCommit;; emit (DbRefresh i);;
                   mret (i, set_refresh_token (Some t) u)));
    [done|intros; preserves_step|preserves_step].
Qed.

Lemma confirm_email_keeps_keys (e : string) :
  preserves key_columns (UserRepositoryMore.confirm_email e).
Proof.
  apply (keeps_keys_write e (set_confirmed true) (λ _ _, emit DbCommit));
    [done|intros; preserves_step|preserves_step].
Qed.

Lemma update_avatar_url_keeps_keys (e url : string) :
  preserves key_columns (UserRepositoryMore.update_avatar_url e url).
Proof.
  apply (keeps_keys_write e (set_avatar (Some url))
           (λ i u, emit DbCommit;; emit (DbRefresh i);;
                   mret (Some (i, set_avatar (Some url) u))));
    [done|intros; preserves_step|preserves_step].
Qed.

Ltac unfold_routes :=
  unfold login_user, new_token, verify_refresh_token, get_current_user,
    get_current_user_object, forget_password, request_email, confirm_email, get_email_from_token,
    update_user_password_route, update_user_password,
    update_avatar_user_route, update_avatar_user,
    UserService.get_user_by_username, UserService.get_user_by_email,
    UserService.update_refresh_token, UserService.update_hashed_password,
    UserServiceMore.confirm_email, UserServiceMore.update_avatar_url,
    getattr_refresh_token, subscript, checked_username, claim_string,
    get_settings, datetime_now, add_task.

Ltac preserves_tac :=
  repeat first
    [ apply update_hashed_password_keeps_keys
    | apply update_refresh_token_keeps_keys
    | apply confirm_email_keeps_keys
    | apply update_avatar_url_keeps_keys
    | apply preserves_draws;
        [ by intros [] ?
        | first [ apply generate_temp_password_entropy
                | apply get_password_hash_entropy ] ]
    | preserves_step
    | apply preserves_try
    | apply preserves_bind; [|intros]
    | progress unfold_routes
    | match goal with
      | |- preserves _ (match ?x with _ => _ end) => destruct x
      | |- preserves _ (if ?b then _ else _) => destruct b
      end ].

(** X19: The four writes [update_hashed_password], [update_refresh_token],
    [confirm_email] and [update_avatar_url] of the user repository, the
    resolution of a bearer token, and the routes for login, refresh,
    password reset, verification request, email confirmation, password
    change and avatar change never change the id, the email or the user
    name of a row, or the number of rows, whatever their arguments, the
    state they run in and their outcome: these writes touch only the
    confirmation flag, the avatar, the password hash and the refresh
    token.  (Registration, which adds a row through [create_user], is not
    among them.) *)
Theorem key_columns_invariant :
  (∀ e h, preserves key_columns (UserRepository.update_hashed_password e h))
  ∧ (∀ e t, preserves key_columns (UserRepository.update_refresh_token e t))
  ∧ (∀ e, preserves key_columns (UserRepositoryMore.confirm_email e))
  ∧ (∀ e url,
       preserves key_columns (UserRepositoryMore.update_avatar_url e url))
  ∧ (∀ name pw, preserves key_columns (login_user name pw))
  ∧ (∀ t, preserves key_columns (new_token t))
  ∧ (∀ t, preserves key_columns (get_current_user t))
  ∧ (∀ e, preserves key_columns (forget_password e))
  ∧ (∀ e url, preserves key_columns (request_email e url))
  ∧ (∀ t, preserves key_columns (confirm_email t))
  ∧ (∀ t old new,
       preserves key_columns (update_user_password_route t old new))
  ∧ (∀ t url, preserves key_columns (update_avatar_user_route t url)).
Proof.
  repeat split; intros; unfold_routes; preserves_tac.
Qed.

(** X20: The calls that only read: resolving a bearer token, validating a
    refresh token, the refresh route and the verification-request route
    never change a row of the user table, and the last three never touch
    the cache either. *)
Theorem reading_calls_write_nothing :
  (∀ t, preserves db (get_current_user t))
  ∧ (∀ t, preserves db (verify_refresh_token t))
  ∧ (∀ t, preserves db (new_token t))
  ∧ (∀ e url, preserves db (request_email e url))
  ∧ (∀ t, preserves redis (verify_refresh_token t))
  ∧ (∀ t, preserves redis (new_token t))
  ∧ (∀ e url, preserves redis (request_email e url)).
Proof.
  repeat split; intros; unfold_routes; preserves_tac.
Qed.

(** X21: Only the resolution of a bearer token writes the cache.  A login, a
    password reset, an email confirmation, and the handlers that change
    the password or the avatar leave every cache entry as it was, so a
    snapshot cached before such a change is served until it expires. *)
Theorem cache_is_never_invalidated :
  (∀ name pw, preserves redis (login_user name pw))
  ∧ (∀ e, preserves redis (forget_password e))
  ∧ (∀ t, preserves redis (confirm_email t))
  ∧ (∀ old new user, preserves redis (update_user_password old new user))
  ∧ (∀ url user, preserves redis (update_avatar_user url user))
  ∧ (∀ e h, preserves redis (UserRepository.update_hashed_password e h))
  ∧ (∀ e t, preserves redis (UserRepository.update_refresh_token e t)).
Proof.
  repeat split; intros; unfold_routes;
    unfold UserRepository.update_hashed_password,
      UserRepository.update_refresh_token,
      UserRepositoryMore.confirm_email,
      UserRepositoryMore.update_avatar_url, assign;
    preserves_tac.
Qed.

(** ** The alphabet of temporary passwords *)

(** X22: Every character of a temporary password is an ASCII letter, a digit or
    one of [@$!%*?&], under pytest as outside it; generating one uses up
    random draws and changes nothing else of the state. *)
Theorem generate_temp_password_alphabet (w : World) :
  ∃ pw w', generate_temp_password w = (Ok pw, w')
    ∧ Forall (λ c, c ∈ password_alphabet) (chars pw)
    ∧ same_but_entropy w w'.
Proof.
  destruct (generate_temp_password_chars w)
    as (pw & w' & Hrun & Hall & _ & Hw).
  by exists pw, w'.
Qed.

(** ** The avatar route *)

(** X23: The avatar route changes an avatar only for an administrator.  When the
    bearer token resolves to a user whose role is not ADMIN the route ends
    in 403 "User does not have enough permissions" with the table as the
    resolution left it; when it resolves to an administrator whose email
    selects one row, that row gets the new URL as its avatar, is returned
    so, and no other row changes. *)
Theorem update_avatar_user_route_gate (w w1 : World) (t : token)
    (url : string) (user : User) :
  get_current_user t w = (Ok user, w1) →
  (role user ≠ ADMIN →
   update_avatar_user_route t url w =
   (Raise (HTTPException 403 "User does not have enough permissions" []),
    w1))
  ∧ (role user = ADMIN →
     ∀ i u, select_where (has_email (email user)) 0 (db w1) = [(i, u)] →
     ∃ w', update_avatar_user_route t url w =
           (Ok (Some (i, set_avatar (Some url) u)), w')
       ∧ db w' = <[i := set_avatar (Some url) u]> (db w1)).
Proof.
  intros Hres.
  assert (Hrun : update_avatar_user_route t url w =
            (admin ← lift (get_current_admin_user user);
             update_avatar_user url admin) w1).
  { unfold update_avatar_user_route. unfold mbind at 1, M_bind at 1.
    by rewrite Hres. }
  rewrite Hrun. unfold get_current_admin_user. split.
  - intros Hrole. by rewrite bool_decide_eq_true_2.
  - intros Hrole i u Hsel.
    rewrite bool_decide_eq_false_2 by (by intros []). run.
    unfold update_avatar_user, UserServiceMore.update_avatar_url,
      UserRepositoryMore.update_avatar_url,
      UserRepository.get_user_by_email, assign. run.
    rewrite Hsel. simpl. eauto.
Qed.

Lemma update_avatar_user_route_gate_witness :
  update_avatar_user_route (access_at 5000000) "http://example.com/a.jpg"
    (with_db [agent007_user] world0) =
    (Raise (HTTPException 403 "User does not have enough permissions" []),
     cache_filled "agent007" agent007_user (with_db [agent007_user] world0))
  ∧ ∃ w', update_avatar_user_route (access_at 5000000)
            "http://example.com/a.jpg" world0 =
          (Ok (Some (0%nat,
                     set_avatar (Some "http://example.com/a.jpg") agent007)),
           w')
      ∧ db w' = <[0%nat := set_avatar (Some "http://example.com/a.jpg")
                              agent007]>
                  (db (cache_filled "agent007" agent007 world0)).
Proof.
  split.
  - apply (proj1 (update_avatar_user_route_gate
                    (with_db [agent007_user] world0)
                    (cache_filled "agent007" agent007_user
                       (with_db [agent007_user] world0))
                    (access_at 5000000) "http://example.com/a.jpg"
                    agent007_user eq_refl)).
    discriminate.
  - apply (proj2 (update_avatar_user_route_gate world0
                    (cache_filled "agent007" agent007 world0)
                    (access_at 5000000) "http://example.com/a.jpg"
                    agent007 eq_refl) eq_refl 0%nat agent007).
    reflexivity.
Defined.

(** ** The password route and the cached snapshot *)

Lemma same_but_entropy_peek (k : string) (w w' : World) :
  same_but_entropy w w' → Redis.peek k w' = Redis.peek k w.
Proof. by intros ->. Qed.

(** X24: The password route checks the old password against the hash in the
    snapshot that [get_current_user] returns.  When that snapshot comes
    from the cache, the check passes and bcrypt takes the new password,
    the new hash is written to the row found by the snapshot's email,
    while the cache keeps the snapshot with the old hash: until the entry
    expires, later calls are still checked against the old password.
    When bcrypt does not take the new password (it holds a NUL byte or is
    longer than 4096 bytes), hashing raises and the table stays as it
    was. *)
Theorem password_route_uses_snapshot (w : World) (t : token)
    (payload : claims) (name old new : string) (user : User) (i : nat)
    (u : User) :
  Jose.decode t (JWT_SECRET (settings w)) [JWT_ALGORITHM (settings w)]
    (clock w) = Ok payload →
  payload !! "sub" = Some (JStr name) →
  Redis.peek name w = Some (Pickled user) →
  Hash.verify_password old (hashed_password user) = Ok true →
  select_where (has_email (email user)) 0 (db w) = [(i, u)] →
  (bcrypt_accepts new = true →
   ∃ h w1,
     update_user_password_route t old new w = (Ok user, w1)
     ∧ db w1 = <[i := set_hashed_password h u]> (db w)
     ∧ Hash.verify_password new h = Ok true
     ∧ Redis.peek name w1 = Some (Pickled user))
  ∧ (bcrypt_accepts new = false →
     ∃ e w1,
       update_user_password_route t old new w = (Raise e, w1)
       ∧ (e = PasswordSizeError ∨ e = PasswordValueError)
       ∧ db w1 = db w).
Proof.
  intros Hdec Hsub Hpeek Hv Hsel.
  set (w0 := with_log (log w ++ [RedisGet name]) w).
  assert (Hres : update_user_password_route t old new w =
            update_user_password old new (Detached user) w0).
  { unfold update_user_password_route. unfold mbind at 1, M_bind at 1.
    by rewrite (get_current_user_object_cached w t payload name Hdec Hsub
                  user Hpeek). }
  rewrite Hres. split.
  - intros Hok.
    destruct (update_user_password_writes w0 old new (Detached user) i u
                Hv Hok Hsel) as (h & w1 & Hrun & Hdb & Hredis & Hclock & Hnew).
    exists h, w1. rewrite Hrun. repeat split; try done.
    unfold Redis.peek. rewrite Hredis, Hclock. exact Hpeek.
  - intros Hno.
    destruct (get_password_hash_refuses new w0 Hno)
      as (e & w1 & Hhash & He & Hw1).
    exists e, w1. unfold update_user_password, getattr. run.
    rewrite Hv. simpl. rewrite Hhash.
    repeat split; [done|]. by rewrite (same_but_entropy_db _ _ Hw1).
Qed.

Lemma password_route_uses_snapshot_witness :
  (∃ h w1,
     update_user_password_route (access_at 5000000) "Testtest1!"
       "SomeNewPass1!" world_cached = (Ok agent007_logged_in, w1)
     ∧ db w1 = <[0%nat := set_hashed_password h agent007_logged_in]>
                 (db world_cached)
     ∧ Hash.verify_password "SomeNewPass1!" h = Ok true
     ∧ Redis.peek "agent007" w1 = Some (Pickled agent007_logged_in))
  ∧ ∃ e w1,
      update_user_password_route (access_at 5000000) "Testtest1!"
        nul_password world_cached = (Raise e, w1)
      ∧ (e = PasswordSizeError ∨ e = PasswordValueError)
      ∧ db w1 = db world_cached.
Proof.
  split.
  - apply (proj1 (password_route_uses_snapshot world_cached
                    (access_at 5000000)
                    (kind_claims "access" "agent007" 5 3605) "agent007"
                    "Testtest1!" "SomeNewPass1!" agent007_logged_in 0%nat
                    agent007_logged_in eq_refl eq_refl eq_refl eq_refl
                    eq_refl)).
    reflexivity.
  - apply (proj2 (password_route_uses_snapshot world_cached
                    (access_at 5000000)
                    (kind_claims "access" "agent007" 5 3605) "agent007"
                    "Testtest1!" nul_password agent007_logged_in 0%nat
                    agent007_logged_in eq_refl eq_refl eq_refl eq_refl
                    eq_refl)).
    reflexivity.
Defined.
